(** * FLUX.1 Schnell manifold function: a shallow embedding of
      [flux_schnell_manifold_function.py] and the properties of its
      provider selection, response normalisers and error handling. *)

From Stdlib Require Import ZArith NArith List Bool Lia.
From Stdlib Require Import Strings.Ascii Strings.String Strings.Byte.
From Stdlib Require Import Numbers.DecimalString.
Import ListNotations.

Open Scope list_scope.
Open Scope string_scope.

(** ** Python [str] primitives used by the adapter *)

Module PyStr.

(** The line feed written as a backslash-n escape in the source literals. *)
Definition nl : string := String (ascii_of_nat 10) EmptyString.

(** [s.startswith(p)]. *)
Fixpoint startswith (p s : string) : bool :=
  match p with
  | EmptyString => true
  | String a p' =>
      match s with
      | EmptyString => false
      | String b s' => Ascii.eqb a b && startswith p' s'
      end
  end.

(** [needle in hay] on two strings: substring containment. *)
Fixpoint contains (needle hay : string) : bool :=
  startswith needle hay
  || match hay with
     | EmptyString => false
     | String _ hay' => contains needle hay'
     end.

(** [s.endswith(p)]. *)
Fixpoint endswith (p s : string) : bool :=
  String.eqb p s
  || match s with
     | EmptyString => false
     | String _ s' => endswith p s'
     end.

(** [s[:n]]. *)
Fixpoint take (n : nat) (s : string) : string :=
  match n, s with
  | S n', String c s' => String c (take n' s')
  | _, _ => EmptyString
  end.

(** [s.split(sep)] for a non-empty separator: a left-to-right scan that
    cuts at every occurrence of [sep] and resumes after it.  [skip] counts
    the characters of a matched separator that are still to be passed over,
    [cur] is the piece being accumulated. *)
Fixpoint split_go (sep s : string) (skip : nat) (cur : string) : list string :=
  match s with
  | EmptyString => [cur]
  | String c s' =>
      match skip with
      | S k => split_go sep s' k cur
      | O =>
          if startswith sep s
          then cur :: split_go sep s' (String.length sep - 1) EmptyString
          else split_go sep s' 0 (cur ++ String c EmptyString)
      end
  end.

Definition split (sep s : string) : list string := split_go sep s 0 EmptyString.

(** ASCII lower-casing, for the case-insensitive header names of
    [requests]. *)
Definition lower_ascii (c : ascii) : ascii :=
  let n := nat_of_ascii c in
  if (65 <=? n)%nat && (n <=? 90)%nat then ascii_of_nat (n + 32) else c.

Fixpoint lower (s : string) : string :=
  match s with
  | EmptyString => EmptyString
  | String c s' => String (lower_ascii c) (lower s')
  end.

(** [str(n)] for an integer. *)
Definition str_of_Z (n : Z) : string := NilEmpty.string_of_int (Z.to_int n).

End PyStr.

(** ** Base64 *)

Module Base64.

Definition alphabet : string :=
  "ABCDEFGHIJKLMNOPQRSTUVWXYZabcdefghijklmnopqrstuvwxyz0123456789+/".

(** The character of a six-bit digit. *)
Definition digit_char (n : N) : ascii :=
  match String.get (N.to_nat n) alphabet with
  | Some c => c
  | None => "="%char
  end.

Fixpoint index_from (c : ascii) (s : string) (i : N) : option N :=
  match s with
  | EmptyString => None
  | String d s' => if Ascii.eqb c d then Some i else index_from c s' (N.succ i)
  end.

(** The six-bit digit of a character of the alphabet. *)
Definition char_digit (c : ascii) : option N := index_from c alphabet 0.

Definition code (b : byte) : N := Byte.to_N b.

(** [base64.b64encode(bs).decode("utf-8")]: three bytes give four digits;
    a last group of one or two bytes is padded with [=]. *)
Fixpoint b64encode (bs : list byte) : string :=
  match bs with
  | [] => EmptyString
  | [a] =>
      String (digit_char (code a / 4))
        (String (digit_char (code a mod 4 * 16)) "==")
  | [a; b] =>
      String (digit_char (code a / 4))
        (String (digit_char (code a mod 4 * 16 + code b / 16))
           (String (digit_char (code b mod 16 * 4)) "="))
  | a :: b :: c :: rest =>
      String (digit_char (code a / 4))
        (String (digit_char (code a mod 4 * 16 + code b / 16))
           (String (digit_char (code b mod 16 * 4 + code c / 64))
              (String (digit_char (code c mod 64)) (b64encode rest))))
  end.

Definition byte_of (n : N) : option byte := Byte.of_N n.

(** The decoder the round-trip property is stated against: groups of four
    characters, padding accepted in the last group only. *)
Fixpoint b64decode_go (fuel : nat) (s : string) : option (list byte) :=
  match fuel with
  | O => None
  | S fuel' =>
      match s with
      | EmptyString => Some []
      | String c1 (String c2 (String c3 (String c4 rest))) =>
          match char_digit c1, char_digit c2 with
          | Some d1, Some d2 =>
              match byte_of (d1 * 4 + d2 / 16) with
              | None => None
              | Some a =>
                  if Ascii.eqb c3 "=" then
                    if Ascii.eqb c4 "=" then
                      match rest with EmptyString => Some [a] | _ => None end
                    else None
                  else
                    match char_digit c3 with
                    | None => None
                    | Some d3 =>
                        match byte_of (d2 mod 16 * 16 + d3 / 4) with
                        | None => None
                        | Some b =>
                            if Ascii.eqb c4 "=" then
                              match rest with
                              | EmptyString => Some [a; b]
                              | _ => None
                              end
                            else
                              match char_digit c4 with
                              | None => None
                              | Some d4 =>
                                  match byte_of (d3 mod 4 * 64 + d4) with
                                  | None => None
                                  | Some c =>
                                      match b64decode_go fuel' rest with
                                      | None => None
                                      | Some bs => Some (a :: b :: c :: bs)
                                      end
                                  end
                              end
                        end
                    end
              end
          | _, _ => None
          end
      | _ => None
      end
  end.

Definition b64decode (s : string) : option (list byte) :=
  b64decode_go (S (String.length s)) s.

End Base64.

(** ** Python values, exceptions and the effects of a call *)

Set Warnings "-register-all".

(** A decoded JSON value, which is also the shape of every dynamically
    typed value the adapter handles ([Dict[str, Any]], [Any]).  Objects keep
    their insertion order, as Python dictionaries do. *)
Inductive json : Type :=
| JNull
| JBool (b : bool)
| JNum (n : Z)
| JStr (s : string)
| JArr (items : list json)
| JObj (fields : list (string * json)).

(** The exception classes the adapter can meet.  [RequestException] stands
    for [requests.exceptions.RequestException] and its subclasses; every
    class here derives from [Exception]. *)
Inductive exn_class : Type :=
| RequestException
| KeyError
| IndexError
| TypeError
| AttributeError
| OtherException.

(** A raised exception: its class and [str(e)]. *)
Record exn : Type := Raise { exn_cls : exn_class; exn_msg : string }.

Definition is_request_exception (e : exn) : bool :=
  match exn_cls e with RequestException => true | _ => false end.

(** The outcome of an expression that may raise. *)
Definition result (A : Type) : Type := (exn + A)%type.

Module Dict.

(** Dictionaries with string keys, in insertion order. *)
Definition t (V : Type) : Type := list (string * V).

Fixpoint get {V} (k : string) (d : t V) : option V :=
  match d with
  | [] => None
  | (k', v) :: d' => if String.eqb k k' then Some v else get k d'
  end.

Definition mem {V} (k : string) (d : t V) : bool :=
  match get k d with Some _ => true | None => false end.

(** [d[k] = v]: an existing key keeps its place, a new one goes last. *)
Fixpoint set {V} (k : string) (v : V) (d : t V) : t V :=
  match d with
  | [] => [(k, v)]
  | (k', v') :: d' =>
      if String.eqb k k' then (k, v) :: d' else (k', v') :: set k v d'
  end.

(** [d.update(other)]. *)
Definition update {V} (d other : t V) : t V :=
  fold_left (fun acc kv => set (fst kv) (snd kv) acc) other d.

(** [d.get(k, default)]. *)
Definition get_default {V} (k : string) (default : V) (d : t V) : V :=
  match get k d with Some v => v | None => default end.

(** Lookup in the case-insensitive header mapping of a response. *)
Fixpoint get_ci {V} (k : string) (d : t V) : option V :=
  match d with
  | [] => None
  | (k', v) :: d' =>
      if String.eqb (PyStr.lower k) (PyStr.lower k') then Some v
      else get_ci k d'
  end.

End Dict.

Definition type_name (v : json) : string :=
  match v with
  | JNull => "NoneType"
  | JBool _ => "bool"
  | JNum _ => "int"
  | JStr _ => "str"
  | JArr _ => "list"
  | JObj _ => "dict"
  end.

Definition quote (s : string) : string := "'" ++ s ++ "'".

(** [k in v] for a string [k]: key membership in a dictionary, element
    membership in a list, substring containment in a string, and a
    [TypeError] on the values that are not containers. *)
Definition py_in (k : string) (v : json) : result bool :=
  match v with
  | JObj d => inr (Dict.mem k d)
  | JArr l =>
      inr (existsb (fun x => match x with
                             | JStr s => String.eqb s k
                             | _ => false
                             end) l)
  | JStr s => inr (PyStr.contains k s)
  | _ =>
      inl (Raise TypeError
             ("argument of type " ++ quote (type_name v) ++ " is not iterable"))
  end.

(** [v[k]] for a string [k]; the messages are those of CPython 3.11. *)
Definition py_getitem (v : json) (k : string) : result json :=
  match v with
  | JObj d =>
      match Dict.get k d with
      | Some x => inr x
      | None => inl (Raise KeyError (quote k))
      end
  | JArr _ =>
      inl (Raise TypeError "list indices must be integers or slices, not str")
  | JStr _ =>
      inl (Raise TypeError "string indices must be integers, not 'str'")
  | _ =>
      inl (Raise TypeError
             (quote (type_name v) ++ " object is not subscriptable"))
  end.

(** [v[0]]. *)
Definition py_getitem_0 (v : json) : result json :=
  match v with
  | JArr (x :: _) => inr x
  | JArr [] => inl (Raise IndexError "list index out of range")
  | JStr (String c _) => inr (JStr (String c EmptyString))
  | JStr EmptyString => inl (Raise IndexError "string index out of range")
  | JObj _ => inl (Raise KeyError "0")
  | _ =>
      inl (Raise TypeError
             (quote (type_name v) ++ " object is not subscriptable"))
  end.

(** Truthiness, as tested by [if]. *)
Definition py_truthy (v : json) : bool :=
  match v with
  | JNull => false
  | JBool b => b
  | JNum n => negb (Z.eqb n 0)
  | JStr s => negb (String.eqb s EmptyString)
  | JArr l => match l with [] => false | _ => true end
  | JObj d => match d with [] => false | _ => true end
  end.

(** A [requests.Response], as far as the adapter reads it. *)
Record Response : Type := {
  status_code : Z;
  reason : string;
  url : string;
  headers : Dict.t string;
  content : list byte;
  json_ : result json  (* what [response.json()] returns or raises *)
}.

(** The requests a call sends, in order. *)
Inductive event : Type :=
| EPost (target : string) (hdrs : Dict.t string) (body : json)
| EGet (target : json) (hdrs : Dict.t string).

Definition is_post (e : event) : bool :=
  match e with EPost _ _ _ => true | EGet _ _ => false end.

Definition is_get (e : event) : bool :=
  match e with EGet _ _ => true | EPost _ _ _ => false end.

(** A computation of the adapter: the requests it has sent, and either the
    exception it raised or its value. *)
Definition M (A : Type) : Type := (list event * result A)%type.

Definition ret {A} (a : A) : M A := ([], inr a).

Definition raise {A} (e : exn) : M A := ([], inl e).

Definition bind {A B} (m : M A) (f : A -> M B) : M B :=
  match m with
  | (t, inl e) => (t, inl e)
  | (t, inr a) => let (t', r) := f a in ((t ++ t')%list, r)
  end.

Definition lift {A} (r : result A) : M A := ([], r).

Definition emit (e : event) : M unit := ([e], inr tt).

Notation "x <- m ;; k" := (bind m (fun x => k))
  (at level 61, m at next level, right associativity).
Notation "m ;;; k" := (bind m (fun _ => k))
  (at level 61, right associativity).

(** [try: m  except RequestException as e: h1(e)  except Exception as e:
    h2(e)]. *)
Definition try_except {A} (m : M A) (on_request on_other : exn -> M A) : M A :=
  match m with
  | (t, inl e) =>
      let (t', r) :=
        if is_request_exception e then on_request e else on_other e in
      ((t ++ t')%list, r)
  | (t, inr a) => (t, inr a)
  end.

Definition trace {A} (m : M A) : list event := fst m.
Definition outcome {A} (m : M A) : result A := snd m.

(** What lies outside the adapter: the [requests] library with the network
    behind it, the Python evaluator, the host's
    [get_last_user_message], and [str()] on a decoded value. *)
Record World : Type := {
  (** [requests.post(url=, headers=, json=, stream=False,
      timeout=(3.05, 60))] *)
  requests_post : string -> Dict.t string -> json -> result Response;
  (** [requests.get(url, headers=)] *)
  requests_get : json -> Dict.t string -> result Response;
  (** [{**eval(src)}]: the mapping the source text evaluates to, or the
      exception raised on the way; evaluation is taken to send no request *)
  eval_mapping : string -> result (Dict.t json);
  (** [open_webui.utils.misc.get_last_user_message] *)
  get_last_user_message : json -> result json;
  (** [str(v)], as an f-string interpolates a value *)
  py_str : json -> string
}.

(** ** The adapter: class [Pipe] *)

(** [Pipe.Valves]. *)
Record Valves : Type := {
  FLUX_SCHNELL_API_KEY : string;
  FLUX_SCHNELL_API_BASE_URL : string;
  BEFORE_INPUT_STRING : string
}.

(** The double quote character of the source literals. *)
Definition dq : string := String (ascii_of_nat 34) EmptyString.

Definition default_BEFORE_INPUT_STRING : string :=
  dq ++ "version" ++ dq ++ ": " ++ dq
  ++ "5599ed30703defd1d160a25a63321b4dec97101d98b4674bcc56e41f62f35637"
  ++ dq ++ ",".

(** The instance state set up by [__init__]. *)
Record Pipe : Type := {
  type_ : string;
  id : string;
  name : string;
  valves : Valves
}.

(** [Pipe.__init__], reading the two environment variables through
    [getenv]. *)
Definition init (getenv : string -> option string) : Pipe :=
  {| type_ := "manifold";
     id := "FLUX_Schnell";
     name := "FLUX.1: ";
     valves :=
       {| FLUX_SCHNELL_API_KEY :=
            match getenv "FLUX_SCHNELL_API_KEY" with
            | Some v => v
            | None => ""
            end;
          FLUX_SCHNELL_API_BASE_URL :=
            match getenv "FLUX_SCHNELL_API_BASE_URL" with
            | Some v => v
            | None =>
                "https://api-inference.huggingface.co/models/black-forest-labs/FLUX.1-schnell"
            end;
          BEFORE_INPUT_STRING := default_BEFORE_INPUT_STRING |} |}.

(** The value [pipe] hands back: a string, or a generator object.  A
    generator is its suspended body: running it gives the elements it yields
    and the requests it sends while it is consumed. *)
Definition generator : Type := M (list string).

Inductive pipe_result : Type :=
| RStr (s : string)
| RGen (g : generator).

(** [response.raise_for_status()]. *)
Definition raise_for_status (r : Response) : M unit :=
  let code := status_code r in
  let msg kind :=
    PyStr.str_of_Z code ++ " " ++ kind ++ " Error: " ++ reason r
    ++ " for url: " ++ url r in
  if (400 <=? code)%Z && (code <? 500)%Z then
    raise (Raise RequestException (msg "Client"))
  else if (500 <=? code)%Z && (code <? 600)%Z then
    raise (Raise RequestException (msg "Server"))
  else ret tt.

(** [response.headers.get(name, default)]; the header names of a response
    are matched without regard to case. *)
Definition header_get (r : Response) (name default : string) : string :=
  match Dict.get_ci name (headers r) with
  | Some v => v
  | None => default
  end.

(** [Pipe.get_img_extension]. *)
Definition get_img_extension (img_data : string) : option string :=
  if PyStr.startswith "/9j/" img_data then Some "jpeg"
  else if PyStr.startswith "iVBOR" img_data then Some "png"
  else if PyStr.startswith "R0lG" img_data then Some "gif"
  else if PyStr.startswith "UklGR" img_data then Some "webp"
  else None.

(** The [try: img_data = img_data.split(";base64,")[1]  except IndexError:
    pass] step on a string. *)
Definition strip_base64_prefix (img_data : string) : string :=
  match nth_error (PyStr.split ";base64," img_data) 1 with
  | Some piece => piece
  | None => img_data
  end.

(** The attribute lookup [img_data.split]: only a string has it. *)
Definition str_method (attr : string) (v : json) : result string :=
  match v with
  | JStr s => inr s
  | _ =>
      inl (Raise AttributeError
             (quote (type_name v) ++ " object has no attribute "
              ++ quote attr))
  end.

(** The text returned when no key of [payload_map] is in the base URL. *)
Definition unsupported_base_url : string :=
  "Error: Unsupported API base URL! Remember, that's the beauty of open-source: you can add your own...".

(** The text returned by the [else] branch of [handle_json_response]; the
    source literal has no [f] prefix. *)
Definition unexpected_format : string :=
  "Error: Unexpected response format for the image provider! {resp}".

Section Adapter.

Variable W : World.
Variable self : Pipe.

(** [Pipe.url_to_img_data]. *)
Definition url_to_img_data (img_url : json) : M string :=
  let hdrs :=
    [("Authorization", "Bearer " ++ FLUX_SCHNELL_API_KEY (valves self))] in
  emit (EGet img_url hdrs);;;
  response <- lift (requests_get W img_url hdrs);;
  raise_for_status response;;;
  let content_type :=
    header_get response "Content-Type" "application/octet-stream" in
  let encoded_content := Base64.b64encode (content response) in
  ret ("data:" ++ content_type ++ ";base64," ++ encoded_content).

(** Lines 118-124 of [handle_json_response]: where the image data comes
    from.  [None] is the [else] branch, which returns at once. *)
Definition json_img_data (resp : json) : M (option json) :=
  has_output <- lift (py_in "output" resp);;
  if has_output then
    output <- lift (py_getitem resp "output");;
    img_url <- lift (py_getitem_0 output);;
    img_data <- url_to_img_data img_url;;
    ret (Some (JStr img_data))
  else
    has_data <- lift (py_in "data" resp);;
    has_b64 <-
      (if has_data then
         data <- lift (py_getitem resp "data");;
         first <- lift (py_getitem_0 data);;
         lift (py_in "b64_json" first)
       else ret false);;
    if has_b64 then
      data <- lift (py_getitem resp "data");;
      first <- lift (py_getitem_0 data);;
      img_data <- lift (py_getitem first "b64_json");;
      ret (Some img_data)
    else ret None.

(** Lines 126-138 of [handle_json_response]: strip the prefix, sniff the
    format, rebuild the data URI. *)
Definition json_img_markdown (resp img_data : json) : M string :=
  s <- lift (str_method "split" img_data);;
  let img_data := strip_base64_prefix s in
  match get_img_extension (PyStr.take 9 img_data) with
  | None =>
      ret ("Error: Unsupported image format! " ++ PyStr.nl ++ PyStr.nl ++ " "
           ++ py_str W resp ++ " " ++ PyStr.nl ++ PyStr.nl ++ " " ++ img_data)
  | Some img_ext =>
      let img_data := "data:image/" ++ img_ext ++ ";base64," ++ img_data in
      ret ("![Image](" ++ img_data ++ ")" ++ PyStr.nl
           ++ "`GeneratedImage." ++ img_ext ++ "`")
  end.

(** [Pipe.handle_json_response]. *)
Definition handle_json_response (response : Response) : M string :=
  resp <- lift (json_ response);;
  acquired <- json_img_data resp;;
  match acquired with
  | None => ret unexpected_format
  | Some img_data => json_img_markdown resp img_data
  end.

(** [Pipe.handle_image_response]. *)
Definition handle_image_response (response : Response) : M string :=
  let content_type := header_get response "Content-Type" "" in
  let img_ext :=
    if PyStr.contains "image/" content_type
    then last (PyStr.split "/" content_type) ""
    else "png" in
  let image_base64 := Base64.b64encode (content response) in
  ret ("![Image](data:" ++ content_type ++ ";base64," ++ image_base64 ++ ")"
       ++ PyStr.nl ++ "`GeneratedImage." ++ img_ext ++ "`").

(** [Pipe.non_stream_response]. *)
Definition non_stream_response (hdrs : Dict.t string) (payload : json)
  : M string :=
  try_except
    (let target := FLUX_SCHNELL_API_BASE_URL (valves self) in
     emit (EPost target hdrs payload);;;
     response <- lift (requests_post W target hdrs payload);;
     raise_for_status response;;;
     let content_type := header_get response "Content-Type" "" in
     if PyStr.contains "application/json" content_type then
       handle_json_response response
     else if PyStr.contains "image/" content_type then
       handle_image_response response
     else ret ("Error: Unsupported content type " ++ content_type))
    (fun e => ret ("Error: Request failed: " ++ exn_msg e))
    (fun e => ret ("Error: " ++ exn_msg e)).

(** [Pipe.stream_response]: a generator whose body yields the
    non-streaming result. *)
Definition stream_response (hdrs : Dict.t string) (payload : json)
  : generator :=
  s <- non_stream_response hdrs payload;;
  ret [s].

(** [Pipe.pipes]. *)
Definition pipes : list (Dict.t string) :=
  [[("id", "flux_schnell"); ("name", "Schnell")]].

Definition headers_map : Dict.t (Dict.t string) :=
  [("huggingface.co", [("x-wait-for-model", "true")]);
   ("replicate.com", [("Prefer", "wait")]);
   ("together.xyz", []);
   ("hyperbolic.xyz", [])].

(** The entries of the [payload_map] literal of [pipe], once
    [BEFORE_INPUT_STRING] has been evaluated to [fragment]. *)
Definition payload_items (prompt : json) (fragment : Dict.t json)
  : Dict.t json :=
  [("huggingface.co", JObj [("inputs", prompt)]);
   ("replicate.com",
    JObj (Dict.set "input"
            (JObj [("prompt", prompt);
                   ("go_fast", JBool true);
                   ("num_outputs", JNum 1);
                   ("aspect_ratio", JStr "1:1");
                   ("output_format", JStr "webp");
                   ("output_quality", JNum 90)])
            fragment));
   ("together.xyz",
    JObj [("model", JStr "black-forest-labs/FLUX.1-schnell-Free");
          ("prompt", prompt);
          ("width", JNum 1024);
          ("height", JNum 1024);
          ("steps", JNum 4);
          ("n", JNum 1);
          ("response_format", JStr "b64_json")]);
   ("hyperbolic.xyz",
    JObj [("model_name", JStr "FLUX.1-dev");
          ("prompt", prompt);
          ("steps", JNum 25);
          ("cfg_scale", JNum 5);
          ("enable_refiner", JBool false);
          ("height", JNum 1024);
          ("width", JNum 1024);
          ("backend", JStr "auto")])].

(** The source text [eval] is given: the fragment between braces. *)
Definition fragment_source : string :=
  "{" ++ BEFORE_INPUT_STRING (valves self) ++ "}".

(** Building [payload_map] evaluates [BEFORE_INPUT_STRING]. *)
Definition payload_map (prompt : json) : M (Dict.t json) :=
  fragment <- lift (eval_mapping W fragment_source);;
  ret (payload_items prompt fragment).

(** The [for key in payload_map] loop of [pipe], which stops at the first
    key found in the base URL: the selected payload, if any, and the
    headers after the update. *)
Fixpoint select_profile (items : Dict.t json) (hdrs : Dict.t string)
  : option json * Dict.t string :=
  match items with
  | [] => (None, hdrs)
  | (key, payload) :: rest =>
      if PyStr.contains key (FLUX_SCHNELL_API_BASE_URL (valves self)) then
        (Some payload,
         Dict.update hdrs (Dict.get_default key [] headers_map))
      else select_profile rest hdrs
  end.

(** The [headers] literal [pipe] starts from. *)
Definition standard_headers : Dict.t string :=
  [("Authorization", "Bearer " ++ FLUX_SCHNELL_API_KEY (valves self));
   ("Content-Type", "application/json")].

(** [Pipe.pipe].  The first component is the caller's [body] dictionary as
    the call leaves it, the second what the call does and returns. *)
Definition pipe (body : Dict.t json) : Dict.t json * M pipe_result :=
  let hdrs := standard_headers in
  let body := Dict.set "stream" (JBool false) body in
  (body,
   messages <- lift (py_getitem (JObj body) "messages");;
   prompt <- lift (get_last_user_message W messages);;
   items <- payload_map prompt;;
   let (payload, hdrs) := select_profile items hdrs in
   match payload with
   | None =>
       ret (RStr unsupported_base_url)
   | Some payload =>
       try_except
         (if py_truthy (Dict.get_default "stream" (JBool false) body)
          then ret (RGen (stream_response hdrs payload))
          else s <- non_stream_response hdrs payload;; ret (RStr s))
         (fun e => ret (RStr ("Error: Request failed: " ++ exn_msg e)))
         (fun e => ret (RStr ("Error: " ++ exn_msg e)))
   end).

End Adapter.

(** ** A concrete world, for running the adapter on examples *)

Definition join (sep : string) (l : list string) : string :=
  String.concat sep l.

(** [str(v)] for values whose strings need no escaping. *)
Fixpoint plain_str (v : json) : string :=
  match v with
  | JNull => "None"
  | JBool true => "True"
  | JBool false => "False"
  | JNum n => PyStr.str_of_Z n
  | JStr s => quote s
  | JArr l => "[" ++ join ", " (map plain_str l) ++ "]"
  | JObj d =>
      "{"
      ++ join ", " (map (fun kv => quote (fst kv) ++ ": " ++ plain_str (snd kv)) d)
      ++ "}"
  end.

(** The eight bytes every PNG file starts with. *)
Definition png_magic : list byte :=
  [x89; x50; x4e; x47; x0d; x0a; x1a; x0a]%byte.

Definition ok_response (content_type : string) (bytes : list byte)
  (decoded : result json) : Response :=
  {| status_code := 200;
     reason := "OK";
     url := "https://api.together.xyz/v1/images/generations";
     headers := [("Content-Type", content_type)];
     content := bytes;
     json_ := decoded |}.

Definition not_json : exn :=
  Raise RequestException "Expecting value: line 1 column 1 (char 0)".

(** A provider that answers every POST with [reply], has nothing to fetch,
    reads the default version fragment and sees the prompt [a cat]. *)
Definition world_answering (reply : result Response) : World :=
  {| requests_post := fun _ _ _ => reply;
     requests_get :=
       fun _ _ => inl (Raise RequestException "No connection adapters were found");
     eval_mapping :=
       fun _ =>
         inr [("version",
               JStr "5599ed30703defd1d160a25a63321b4dec97101d98b4674bcc56e41f62f35637")];
     get_last_user_message := fun _ => inr (JStr "a cat");
     py_str := plain_str |}.


Definition b64_reply (p : string) : Response :=
  ok_response "application/json" []
    (inr (JObj [("data", JArr [JObj [("b64_json", JStr p)]])])).

Definition png_world : World :=
  world_answering (inr (b64_reply (Base64.b64encode png_magic))).

Definition pipe_at (base : string) : Pipe :=
  {| type_ := "manifold";
     id := "FLUX_Schnell";
     name := "FLUX.1: ";
     valves :=
       {| FLUX_SCHNELL_API_KEY := "k";
          FLUX_SCHNELL_API_BASE_URL := base;
          BEFORE_INPUT_STRING := default_BEFORE_INPUT_STRING |} |}.

Definition together : Pipe :=
  pipe_at "https://api.together.xyz/v1/images/generations".

Definition chat (stream : bool) : Dict.t json :=
  [("stream", JBool stream);
   ("messages",
    JArr [JObj [("role", JStr "user"); ("content", JStr "a cat")]])].

(** The POST requests among those a computation sent. *)
Definition posts {A} (m : M A) : list event := filter is_post (trace m).

(** The GET requests among those a computation sent. *)
Definition fetches {A} (m : M A) : list event := filter is_get (trace m).

(** ** Notions the properties are stated with *)

(** A separator no proper part of which starts it again: it cannot begin
    inside a piece and run into the next occurrence. *)
Definition unbordered (sep : string) : Prop :=
  forall x r,
    x <> "" -> String.length x < String.length sep ->
    PyStr.startswith sep (x ++ sep ++ r) = false.

(** The text of a successful result: the markdown image line around a data
    URI, then the file name hint as inline code. *)
Definition markdown_image (uri ext : string) : string :=
  "![Image](" ++ uri ++ ")" ++ PyStr.nl ++ "`GeneratedImage." ++ ext ++ "`".

(** The six-bit digits. *)
Definition digits : list N := map N.of_nat (seq 0 64).

(** Whether a character occurs in a string. *)
Fixpoint has_char (c : ascii) (s : string) : bool :=
  match s with
  | EmptyString => false
  | String d s' => Ascii.eqb c d || has_char c s'
  end.

(** A world given by its answers to the POST and to the GET. *)
Definition world_of (post fetch : result Response) : World :=
  {| requests_post := fun _ _ _ => post;
     requests_get := fun _ _ => fetch;
     eval_mapping := fun _ => inr [];
     get_last_user_message := fun _ => inr (JStr "a cat");
     py_str := plain_str |}.

(** A world whose fetches return [bytes] as an octet stream. *)
Definition jpeg_host (bytes : list byte) : World :=
  world_of (inl not_json)
    (inr (ok_response "application/octet-stream" bytes (inl not_json))).

(** An answer with the given status. *)
Definition status_response (code : Z) (why content_type : string)
  (decoded : result json) : Response :=
  {| status_code := code;
     reason := why;
     url := "https://api.together.xyz/v1/images/generations";
     headers := [("Content-Type", content_type)];
     content := [];
     json_ := decoded |}.

(** A JSON answer naming an image to fetch. *)
Definition output_reply (target : string) : Response :=
  ok_response "application/json" [] (inr (JObj [("output", JArr [JStr target])])).

(** The decoded values that are no container: [None], booleans, numbers. *)
Definition is_scalar (v : json) : bool :=
  match v with
  | JNull | JBool _ | JNum _ => true
  | _ => false
  end.

(** Whether a decoded value is a string. *)
Definition is_str (v : json) : bool :=
  match v with JStr _ => true | _ => false end.

(** The header [url_to_img_data] sends with its GET. *)
Definition bearer (self : Pipe) : Dict.t string :=
  [("Authorization", "Bearer " ++ FLUX_SCHNELL_API_KEY (valves self))].

(** The text the handlers of [non_stream_response] make of an exception. *)
Definition caught (e : exn) : string :=
  if is_request_exception e
  then "Error: Request failed: " ++ exn_msg e
  else "Error: " ++ exn_msg e.

(** The message of the [HTTPError] that [raise_for_status] raises. *)
Definition http_error (r : Response) : exn :=
  Raise RequestException
    (PyStr.str_of_Z (status_code r) ++ " "
     ++ (if (status_code r <? 500)%Z then "Client" else "Server")
     ++ " Error: " ++ reason r ++ " for url: " ++ url r).

(** What the JSON normaliser returns for a payload [p] that reached the
    sniffing step of a decoded response [resp]. *)
Definition sniffed (W : World) (resp : json) (p : string) : string :=
  match get_img_extension p with
  | Some ext => markdown_image ("data:image/" ++ ext ++ ";base64," ++ p) ext
  | None =>
      "Error: Unsupported image format! " ++ PyStr.nl ++ PyStr.nl ++ " "
      ++ py_str W resp ++ " " ++ PyStr.nl ++ PyStr.nl ++ " " ++ p
  end.

(** The first bytes of JPEG, GIF and RIFF (WebP) files. *)
Definition jpeg_magic : list byte := [xff; xd8; xff]%byte.
Definition gif_magic : list byte := [x47; x49; x46]%byte.
Definition riff_magic : list byte := [x52; x49; x46; x46]%byte.

(** The requests a call may send after its POST: none, or one GET with the
    bearer header. *)
Definition at_most_one_fetch (self : Pipe) (t : list event) : Prop :=
  t = [] \/ exists target, t = [EGet target (bearer self)].

(** * Properties *)

(** ** Strings *)

Lemma append_assoc (a b c : string) : (a ++ b) ++ c = a ++ (b ++ c).
Proof. induction a as [|x a IH]; simpl; [reflexivity | now rewrite IH]. Qed.

Lemma append_empty_r (a : string) : a ++ "" = a.
Proof. induction a as [|x a IH]; simpl; [reflexivity | now rewrite IH]. Qed.

Lemma length_append (a b : string) :
  String.length (a ++ b) = String.length a + String.length b.
Proof. induction a as [|x a IH]; simpl; [reflexivity | now rewrite IH]. Qed.

Lemma startswith_app (p r : string) : PyStr.startswith p (p ++ r) = true.
Proof.
  induction p as [|x p IH]; simpl; [reflexivity|].
  now rewrite Ascii.eqb_refl, IH.
Qed.

Lemma startswith_app_l (p a b : string) :
  PyStr.startswith p a = true -> PyStr.startswith p (a ++ b) = true.
Proof.
  revert a; induction p as [|x p IH]; intros [|y a]; simpl; try easy.
  intros H; apply andb_prop in H as [-> H]; simpl; auto.
Qed.

(** On a string at least as long as the prefix, what follows it is not
    looked at. *)
Lemma startswith_app_long (p a b : string) :
  String.length p <= String.length a ->
  PyStr.startswith p (a ++ b) = PyStr.startswith p a.
Proof.
  revert a; induction p as [|x p IH]; intros [|y a]; simpl; intros H;
    try reflexivity; try lia.
  rewrite IH by lia. reflexivity.
Qed.

Lemma contains_here (n h : string) :
  PyStr.startswith n h = true -> PyStr.contains n h = true.
Proof. destruct h; simpl; intros ->; reflexivity. Qed.

Lemma contains_app_r (n a b : string) :
  PyStr.contains n b = true -> PyStr.contains n (a ++ b) = true.
Proof.
  intros H; induction a as [|x a IH]; simpl; [assumption|].
  rewrite IH. apply orb_true_r.
Qed.

Lemma contains_app_l (n a b : string) :
  PyStr.contains n a = true -> PyStr.contains n (a ++ b) = true.
Proof.
  induction a as [|x a IH]; simpl.
  - rewrite orb_false_r. intros H. apply contains_here.
    destruct n; [reflexivity | discriminate].
  - intros H. apply orb_prop in H as [H|H].
    + change (String x (a ++ b)) with (String x a ++ b).
      rewrite (startswith_app_l _ _ _ H). reflexivity.
    + rewrite (IH H). apply orb_true_r.
Qed.

(** A needle is found in whatever is written around it. *)
Lemma contains_middle (n a b : string) : PyStr.contains n (a ++ n ++ b) = true.
Proof. apply contains_app_r, contains_here, startswith_app. Qed.

Lemma contains_cons_false (n : string) (c : ascii) (h : string) :
  PyStr.contains n (String c h) = false ->
  PyStr.startswith n (String c h) = false /\ PyStr.contains n h = false.
Proof. simpl. intros H. now apply orb_false_elim in H. Qed.

Lemma startswith_take (n : nat) (p s : string) :
  String.length p <= n ->
  PyStr.startswith p (PyStr.take n s) = PyStr.startswith p s.
Proof.
  revert n s; induction p as [|x p IH]; intros n s H; [reflexivity|].
  destruct n as [|n]; [simpl in H; lia|].
  destruct s as [|y s]; [reflexivity|].
  simpl. rewrite IH by (simpl in H; lia). reflexivity.
Qed.

Lemma endswith_here (p : string) : PyStr.endswith p p = true.
Proof.
  destruct p as [|c p]; [reflexivity|].
  cbn [PyStr.endswith]. now rewrite String.eqb_refl.
Qed.

Lemma endswith_app (p a : string) : PyStr.endswith p (a ++ p) = true.
Proof.
  induction a as [|x a IH]; [apply endswith_here|].
  change (String x a ++ p) with (String x (a ++ p)).
  cbn [PyStr.endswith]. rewrite IH. apply orb_true_r.
Qed.

(** ** [split] *)

Lemma split_go_skip (sep x r cur : string) :
  PyStr.split_go sep (x ++ r) (String.length x) cur = PyStr.split_go sep r 0 cur.
Proof.
  induction x as [|c x IH]; simpl; [|exact IH].
  destruct r; reflexivity.
Qed.

Lemma split_go_absent (sep a cur : string) :
  PyStr.contains sep a = false -> PyStr.split_go sep a 0 cur = [cur ++ a].
Proof.
  revert cur; induction a as [|c a IH]; intros cur H.
  - simpl. now rewrite append_empty_r.
  - apply contains_cons_false in H as [H1 H2].
    cbn [PyStr.split_go]. rewrite H1, (IH _ H2), append_assoc. reflexivity.
Qed.

Lemma split_go_first (sep a r cur : string) :
  unbordered sep ->
  PyStr.contains sep a = false ->
  PyStr.split_go sep (a ++ sep ++ r) 0 cur
  = (cur ++ a) :: PyStr.split_go sep r 0 "".
Proof.
  intros U. revert cur; induction a as [|c a IH]; intros cur H.
  - destruct sep as [|s sep]; [discriminate|].
    rewrite append_empty_r.
    change ("" ++ String s sep ++ r) with (String s (sep ++ r)).
    cbn [PyStr.split_go].
    change (String s (sep ++ r)) with (String s sep ++ r).
    rewrite startswith_app.
    replace (String.length (String s sep) - 1) with (String.length sep)
      by (simpl; lia).
    now rewrite split_go_skip.
  - apply contains_cons_false in H as [H1 H2].
    change (String c a ++ sep ++ r) with (String c (a ++ sep ++ r)).
    cbn [PyStr.split_go].
    change (String c (a ++ sep ++ r)) with (String c a ++ sep ++ r).
    assert (E : PyStr.startswith sep (String c a ++ sep ++ r) = false).
    { destruct (Nat.lt_ge_cases (String.length (String c a)) (String.length sep))
        as [L|L].
      - apply U; [discriminate | exact L].
      - rewrite startswith_app_long by exact L. exact H1. }
    rewrite E. change (String c a ++ sep ++ r) with (String c (a ++ sep ++ r)).
    cbn iota. rewrite (IH _ H2), append_assoc. reflexivity.
Qed.

Ltac chars_differ :=
  repeat match goal with
         | |- context [Ascii.eqb ?a ?b] =>
             let E := fresh "E" in
             destruct (Ascii.eqb a b) eqn:E;
             [ try (vm_compute in E; discriminate E) | ];
             cbn [andb]; try reflexivity
         end.

Lemma base64_marker_unbordered : unbordered ";base64,".
Proof.
  intros x r N L.
  destruct x as [|c1 x]; [congruence|].
  do 7 (destruct x as [|? x];
        [cbn [append PyStr.startswith]; now chars_differ|]).
  simpl in L. lia.
Qed.

Lemma slash_unbordered : unbordered "/".
Proof.
  intros x r N L. destruct x; [congruence | simpl in L; lia].
Qed.

(** ** Base64 *)

Section Base64Facts.

Import Base64.

Local Open Scope N_scope.

Lemma digit_listed (n : N) : n < 64 -> In n digits.
Proof.
  intros H. unfold digits. apply in_map_iff.
  exists (N.to_nat n). split; [apply N2Nat.id|].
  apply in_seq. lia.
Qed.

Lemma digit_round (n : N) : n < 64 -> char_digit (digit_char n) = Some n.
Proof.
  intros H.
  assert (A : forallb (fun d => match char_digit (digit_char d) with
                                | Some m => N.eqb m d
                                | None => false
                                end) digits = true) by (vm_compute; reflexivity).
  rewrite forallb_forall in A. specialize (A n (digit_listed n H)).
  destruct (char_digit (digit_char n)); [|discriminate].
  apply N.eqb_eq in A. now subst.
Qed.

Lemma digit_not_pad (n : N) : n < 64 -> Ascii.eqb (digit_char n) "=" = false.
Proof.
  intros H.
  assert (A : forallb (fun d => negb (Ascii.eqb (digit_char d) "=")) digits
              = true) by (vm_compute; reflexivity).
  rewrite forallb_forall in A. specialize (A n (digit_listed n H)).
  now apply negb_true_iff in A.
Qed.

Lemma code_bound (b : byte) : code b < 256.
Proof. unfold code. pose proof (Byte.to_N_bounded b). lia. Qed.

Lemma byte_of_code (b : byte) (n : N) : n = code b -> byte_of n = Some b.
Proof. intros ->. apply Byte.of_to_N. Qed.

Ltac euclid :=
  repeat match goal with
         | b : byte |- _ =>
             lazymatch goal with
             | _ : code b < 256 |- _ => fail
             | _ => pose proof (code_bound b)
             end
         end;
  repeat match goal with
         | |- context [code ?b] => generalize dependent (code b); intros
         end;
  zify; Z.to_euclidean_division_equations; lia.

Lemma sextet1 (a : byte) : code a / 4 < 64.
Proof. euclid. Qed.

Lemma sextet2 (a b : byte) : code a mod 4 * 16 + code b / 16 < 64.
Proof. euclid. Qed.

Lemma sextet2_last (a : byte) : code a mod 4 * 16 < 64.
Proof. euclid. Qed.

Lemma sextet3 (b c : byte) : code b mod 16 * 4 + code c / 64 < 64.
Proof. euclid. Qed.

Lemma sextet3_last (b : byte) : code b mod 16 * 4 < 64.
Proof. euclid. Qed.

Lemma sextet4 (c : byte) : code c mod 64 < 64.
Proof. euclid. Qed.

Lemma octet1 (a b : byte) :
  code a / 4 * 4 + (code a mod 4 * 16 + code b / 16) / 16 = code a.
Proof. euclid. Qed.

Lemma octet1_last (a : byte) :
  code a / 4 * 4 + (code a mod 4 * 16) / 16 = code a.
Proof. euclid. Qed.

Lemma octet2 (a b c : byte) :
  (code a mod 4 * 16 + code b / 16) mod 16 * 16
  + (code b mod 16 * 4 + code c / 64) / 4 = code b.
Proof. euclid. Qed.

Lemma octet2_last (a b : byte) :
  (code a mod 4 * 16 + code b / 16) mod 16 * 16 + (code b mod 16 * 4) / 4
  = code b.
Proof. euclid. Qed.

Lemma octet3 (b c : byte) :
  (code b mod 16 * 4 + code c / 64) mod 4 * 64 + code c mod 64 = code c.
Proof. euclid. Qed.

End Base64Facts.

Section Base64RoundTrip.

Import Base64.

Lemma list_ind3 {A} (P : list A -> Prop) :
  P [] -> (forall a, P [a]) -> (forall a b, P [a; b]) ->
  (forall a b c l, P l -> P (a :: b :: c :: l)) ->
  forall l, P l.
Proof.
  intros H0 H1 H2 H3. fix IH 1.
  intros [|a [|b [|c l]]];
    [exact H0 | apply H1 | apply H2 | apply H3, IH].
Qed.

Lemma b64decode_go_b64encode (bs : list byte) :
  forall fuel,
    String.length (b64encode bs) < fuel ->
    b64decode_go fuel (b64encode bs) = Some bs.
Proof.
  induction bs as [|a|a b|a b c l IH] using list_ind3; intros [|fuel] H;
    try (exfalso; lia); cbn [b64encode b64decode_go].
  - reflexivity.
  - rewrite (digit_round _ (sextet1 a)), (digit_round _ (sextet2_last a)).
    rewrite (byte_of_code a _ (octet1_last a)). reflexivity.
  - rewrite (digit_round _ (sextet1 a)), (digit_round _ (sextet2 a b)).
    rewrite (byte_of_code a _ (octet1 a b)).
    rewrite (digit_not_pad _ (sextet3_last b)).
    rewrite (digit_round _ (sextet3_last b)).
    rewrite (byte_of_code b _ (octet2_last a b)). reflexivity.
  - rewrite (digit_round _ (sextet1 a)), (digit_round _ (sextet2 a b)).
    rewrite (byte_of_code a _ (octet1 a b)).
    rewrite (digit_not_pad _ (sextet3 b c)), (digit_round _ (sextet3 b c)).
    rewrite (byte_of_code b _ (octet2 a b c)).
    rewrite (digit_not_pad _ (sextet4 c)), (digit_round _ (sextet4 c)).
    rewrite (byte_of_code c _ (octet3 b c)).
    rewrite IH; [reflexivity|].
    cbn [b64encode String.length] in H. lia.
Qed.

(** Decoding what [b64encode] wrote gives the bytes back. *)
Lemma b64decode_b64encode (bs : list byte) :
  b64decode (b64encode bs) = Some bs.
Proof. apply b64decode_go_b64encode. lia. Qed.

Lemma get_beyond (s : string) (k : nat) :
  String.length s <= k -> String.get k s = None.
Proof.
  revert k; induction s as [|c s IH]; intros k H; [reflexivity|].
  destruct k as [|k]; simpl in *; [lia | apply IH; lia].
Qed.

Lemma digit_char_not_semicolon (n : N) : Ascii.eqb ";" (digit_char n) = false.
Proof.
  destruct (N.ltb_spec n 64) as [H|H].
  - assert (A : forallb (fun d => negb (Ascii.eqb ";" (digit_char d))) digits
                = true) by (vm_compute; reflexivity).
    rewrite forallb_forall in A. specialize (A n (digit_listed n H)).
    now apply negb_true_iff in A.
  - unfold digit_char. rewrite get_beyond; [reflexivity|].
    change (String.length alphabet) with 64. lia.
Qed.

Lemma b64encode_no_semicolon (bs : list byte) :
  has_char ";" (b64encode bs) = false.
Proof.
  induction bs as [|a|a b|a b c l IH] using list_ind3;
    cbn [b64encode has_char]; rewrite ?digit_char_not_semicolon;
    [reflexivity .. | exact IH].
Qed.

End Base64RoundTrip.

Lemma contains_needs_char (c : ascii) (n s : string) :
  has_char c s = false -> PyStr.contains (String c n) s = false.
Proof.
  induction s as [|d s IH]; cbn [has_char PyStr.contains PyStr.startswith].
  - reflexivity.
  - intros H. apply orb_false_elim in H as [H1 H2].
    rewrite H1, (IH H2). reflexivity.
Qed.

Lemma b64encode_no_marker (bs : list byte) :
  PyStr.contains ";base64," (Base64.b64encode bs) = false.
Proof. apply contains_needs_char, b64encode_no_semicolon. Qed.

Lemma strip_absent (s : string) :
  PyStr.contains ";base64," s = false -> strip_base64_prefix s = s.
Proof.
  intros H. unfold strip_base64_prefix, PyStr.split.
  rewrite (split_go_absent _ _ _ H). reflexivity.
Qed.

Lemma strip_second_piece (a b r : string) :
  PyStr.contains ";base64," a = false ->
  PyStr.contains ";base64," b = false ->
  strip_base64_prefix (a ++ ";base64," ++ b ++ ";base64," ++ r) = b.
Proof.
  intros Ha Hb. unfold strip_base64_prefix, PyStr.split.
  rewrite (split_go_first _ _ _ _ base64_marker_unbordered Ha).
  rewrite (split_go_first _ _ _ _ base64_marker_unbordered Hb).
  reflexivity.
Qed.

Lemma strip_only_piece (a b : string) :
  PyStr.contains ";base64," a = false ->
  PyStr.contains ";base64," b = false ->
  strip_base64_prefix (a ++ ";base64," ++ b) = b.
Proof.
  intros Ha Hb. unfold strip_base64_prefix, PyStr.split.
  rewrite <- (append_empty_r b), <- append_assoc, append_assoc.
  rewrite (split_go_first _ _ _ _ base64_marker_unbordered Ha).
  rewrite append_empty_r, (split_go_absent _ _ _ Hb). reflexivity.
Qed.

(** ** Dictionaries *)

Lemma get_set_other {V} (k k' : string) (v : V) (d : Dict.t V) :
  String.eqb k k' = false -> Dict.get k (Dict.set k' v d) = Dict.get k d.
Proof.
  intros N. induction d as [|[k0 v0] d IH]; simpl.
  - now rewrite N.
  - destruct (String.eqb k' k0) eqn:E; simpl.
    + apply String.eqb_eq in E. subst k0. now rewrite N.
    + destruct (String.eqb k k0); [reflexivity | exact IH].
Qed.

Lemma get_set_same {V} (k : string) (v : V) (d : Dict.t V) :
  Dict.get k (Dict.set k v d) = Some v.
Proof.
  induction d as [|[k0 v0] d IH]; simpl.
  - now rewrite String.eqb_refl.
  - destruct (String.eqb k k0) eqn:E; simpl.
    + now rewrite String.eqb_refl.
    + now rewrite E.
Qed.

Lemma set_set {V} (k : string) (v v' : V) (d : Dict.t V) :
  Dict.set k v (Dict.set k v' d) = Dict.set k v d.
Proof.
  induction d as [|[k0 v0] d IH]; simpl.
  - now rewrite String.eqb_refl.
  - destruct (String.eqb k k0) eqn:E; simpl.
    + now rewrite String.eqb_refl.
    + now rewrite E, IH.
Qed.

(** ** Requests sent by the parts of a call *)

Lemma trace_bind {A B} (m : M A) (f : A -> M B) :
  trace (bind m f)
  = (trace m ++ match outcome m with
                | inr a => trace (f a)
                | inl _ => []
                end)%list.
Proof.
  destruct m as [t [e|a]]; simpl.
  - now rewrite app_nil_r.
  - destruct (f a); reflexivity.
Qed.

Lemma trace_try_except {A} (m : M A) (h1 h2 : exn -> M A) :
  (forall e, trace (h1 e) = []) -> (forall e, trace (h2 e) = []) ->
  trace (try_except m h1 h2) = trace m.
Proof.
  intros H1 H2. destruct m as [t [e|a]]; simpl; [|reflexivity].
  specialize (H1 e). specialize (H2 e).
  destruct (is_request_exception e);
    [destruct (h1 e) | destruct (h2 e)]; simpl in *; subst;
    apply app_nil_r.
Qed.

(** A computation that sends no POST. *)
Lemma posts_bind {A B} (m : M A) (f : A -> M B) :
  posts m = [] -> (forall a, posts (f a) = []) -> posts (bind m f) = [].
Proof.
  unfold posts. intros Hm Hf. rewrite trace_bind, filter_app, Hm.
  destruct (outcome m); [reflexivity | apply Hf].
Qed.

Lemma posts_lift {A} (r : result A) : posts (lift r) = [].
Proof. reflexivity. Qed.

Lemma posts_raise_for_status (r : Response) : posts (raise_for_status r) = [].
Proof.
  unfold raise_for_status.
  destruct (_ && _); [reflexivity|]. destruct (_ && _); reflexivity.
Qed.

Lemma posts_url_to_img_data W self (u : json) :
  posts (url_to_img_data W self u) = [].
Proof.
  unfold url_to_img_data.
  apply posts_bind; [reflexivity | intros _].
  apply posts_bind; [apply posts_lift | intros r].
  apply posts_bind; [apply posts_raise_for_status | intros _].
  reflexivity.
Qed.

Lemma posts_json_img_data W self (resp : json) :
  posts (json_img_data W self resp) = [].
Proof.
  unfold json_img_data.
  apply posts_bind; [apply posts_lift | intros [|]].
  - apply posts_bind; [apply posts_lift | intros ?].
    apply posts_bind; [apply posts_lift | intros ?].
    apply posts_bind; [apply posts_url_to_img_data | intros ?].
    reflexivity.
  - apply posts_bind; [apply posts_lift | intros has_data].
    apply posts_bind.
    + destruct has_data; [|reflexivity].
      apply posts_bind; [apply posts_lift | intros ?].
      apply posts_bind; [apply posts_lift | intros ?].
      apply posts_lift.
    + intros [|]; [|reflexivity].
      apply posts_bind; [apply posts_lift | intros ?].
      apply posts_bind; [apply posts_lift | intros ?].
      apply posts_bind; [apply posts_lift | intros ?].
      reflexivity.
Qed.

Lemma posts_json_img_markdown W (resp img_data : json) :
  posts (json_img_markdown W resp img_data) = [].
Proof.
  unfold json_img_markdown.
  apply posts_bind; [apply posts_lift | intros s].
  destruct (get_img_extension _); reflexivity.
Qed.

Lemma posts_handle_json_response W self (r : Response) :
  posts (handle_json_response W self r) = [].
Proof.
  unfold handle_json_response.
  apply posts_bind; [apply posts_lift | intros resp].
  apply posts_bind; [apply posts_json_img_data | intros [d|]].
  - apply posts_json_img_markdown.
  - reflexivity.
Qed.

(** [non_stream_response] sends the POST first, and only that one. *)
Lemma non_stream_response_posts W self (hdrs : Dict.t string) (payload : json) :
  hd_error (trace (non_stream_response W self hdrs payload))
  = Some (EPost (FLUX_SCHNELL_API_BASE_URL (valves self)) hdrs payload)
  /\ posts (non_stream_response W self hdrs payload)
     = [EPost (FLUX_SCHNELL_API_BASE_URL (valves self)) hdrs payload].
Proof.
  unfold posts, non_stream_response.
  rewrite trace_try_except by reflexivity.
  rewrite trace_bind. cbn [emit trace outcome fst snd app hd_error filter is_post].
  split; [reflexivity|]. f_equal.
  apply (posts_bind (lift _)); [apply posts_lift | intros r].
  apply posts_bind; [apply posts_raise_for_status | intros _].
  destruct (PyStr.contains "application/json" _);
    [apply posts_handle_json_response|].
  destruct (PyStr.contains "image/" _); reflexivity.
Qed.

(** [non_stream_response] raises nothing: both handlers return a string. *)
Lemma non_stream_response_returns W self (hdrs : Dict.t string) (payload : json) :
  exists s, outcome (non_stream_response W self hdrs payload) = inr s.
Proof.
  unfold non_stream_response, try_except.
  match goal with |- context [bind ?m ?f] => destruct (bind m f) as [t [e|s]] end.
  - destruct (is_request_exception e); simpl; eauto.
  - simpl; eauto.
Qed.

(** ** [pipe] once the prompt and the fragment are there *)

Lemma pipe_after_prelude W self (body : Dict.t json) (messages prompt : json)
  (fragment : Dict.t json) :
  Dict.get "messages" body = Some messages ->
  get_last_user_message W messages = inr prompt ->
  eval_mapping W (fragment_source self) = inr fragment ->
  snd (pipe W self body)
  = match select_profile self (payload_items prompt fragment)
            (standard_headers self) with
    | (None, _) => ret (RStr unsupported_base_url)
    | (Some payload, hdrs) =>
        (trace (non_stream_response W self hdrs payload),
         match outcome (non_stream_response W self hdrs payload) with
         | inr s => inr (RStr s)
         | inl e => inl e
         end)
    end.
Proof.
  intros Hm Hp Hf. unfold pipe. cbn [snd].
  unfold py_getitem. rewrite get_set_other by reflexivity. rewrite Hm.
  unfold payload_map.
  cbn [lift bind]. rewrite Hp. cbn [lift bind]. rewrite Hf. cbn [lift bind ret].
  destruct (select_profile self _ _) as [[payload|] hdrs]; [|reflexivity].
  unfold Dict.get_default. rewrite get_set_same. cbn [py_truthy].
  destruct (non_stream_response_returns W self hdrs payload) as [s Hs].
  destruct (non_stream_response W self hdrs payload) as [t r].
  cbn [outcome snd] in Hs. subst r.
  cbn [bind try_except ret trace outcome fst snd app].
  now rewrite !app_nil_r.
Qed.

Lemma pipe_returns_string W self (body : Dict.t json) (messages prompt : json)
  (fragment : Dict.t json) :
  Dict.get "messages" body = Some messages ->
  get_last_user_message W messages = inr prompt ->
  eval_mapping W (fragment_source self) = inr fragment ->
  exists s, outcome (snd (pipe W self body)) = inr (RStr s).
Proof.
  intros Hm Hp Hf. rewrite (pipe_after_prelude _ _ _ _ _ _ Hm Hp Hf).
  destruct (select_profile self _ _) as [[payload|] hdrs].
  - destruct (non_stream_response_returns W self hdrs payload) as [s Hs].
    exists s. cbn [outcome snd] in *. now rewrite Hs.
  - eexists; reflexivity.
Qed.

(** [pipe] never hands back a generator. *)
Lemma pipe_no_generator W self (body : Dict.t json) (g : generator) :
  outcome (snd (pipe W self body)) <> inr (RGen g).
Proof.
  unfold pipe. cbn [snd].
  destruct (py_getitem _ "messages") as [e|messages]; [discriminate|].
  cbn [lift bind].
  destruct (get_last_user_message W messages) as [e|prompt]; [discriminate|].
  unfold payload_map. cbn [lift bind].
  destruct (eval_mapping W _) as [e|fragment]; [discriminate|].
  cbn [lift bind ret].
  destruct (select_profile self _ _) as [[payload|] hdrs]; [|discriminate].
  unfold Dict.get_default. rewrite get_set_same. cbn [py_truthy].
  destruct (non_stream_response_returns W self hdrs payload) as [s Hs].
  destruct (non_stream_response W self hdrs payload) as [t r].
  cbn [outcome snd] in Hs. subst r.
  cbn [bind try_except ret outcome snd]. discriminate.
Qed.

(** ** The model on examples *)

Example split_data_uri :
  PyStr.split ";base64," "data:image/png;base64,AAAA" = ["data:image/png"; "AAAA"].
Proof. reflexivity. Qed.

Example split_trailing_separator : PyStr.split "/" "a/b/" = ["a"; "b"; ""].
Proof. reflexivity. Qed.

Example b64encode_three_bytes :
  Base64.b64encode [x4d; x61; x6e]%byte = "TWFu".
Proof. reflexivity. Qed.

Example b64encode_jpeg_signature :
  Base64.b64encode [xff; xd8; xff]%byte = "/9j/".
Proof. reflexivity. Qed.

Example b64encode_png_signature : Base64.b64encode png_magic = "iVBORw0KGgo=".
Proof. reflexivity. Qed.

Example init_defaults :
  FLUX_SCHNELL_API_BASE_URL (valves (init (fun _ => None)))
  = "https://api-inference.huggingface.co/models/black-forest-labs/FLUX.1-schnell".
Proof. reflexivity. Qed.

Example client_error_is_reported :
  non_stream_response
    (world_answering
       (inr {| status_code := 401; reason := "Unauthorized";
               url := "https://api.together.xyz/v1/images/generations";
               headers := []; content := []; json_ := inl not_json |}))
    together [] JNull
  = ([EPost "https://api.together.xyz/v1/images/generations" [] JNull],
     inr "Error: Request failed: 401 Client Error: Unauthorized for url: https://api.together.xyz/v1/images/generations").
Proof. reflexivity. Qed.

Example fetched_image_is_wrapped :
  handle_json_response
    {| requests_post := fun _ _ _ => inl not_json;
       requests_get :=
         fun _ _ => inr (ok_response "image/jpeg" [xff; xd8; xff]%byte
                           (inl not_json));
       eval_mapping := fun _ => inr [];
       get_last_user_message := fun _ => inr JNull;
       py_str := plain_str |}
    together
    (ok_response "application/json" []
       (inr (JObj [("output", JArr [JStr "http://x/y.jpeg"])])))
  = ([EGet (JStr "http://x/y.jpeg") [("Authorization", "Bearer k")]],
     inr ("![Image](data:image/jpeg;base64,/9j/)" ++ PyStr.nl
          ++ "`GeneratedImage.jpeg`")).
Proof. reflexivity. Qed.

(** * The claims *)




Lemma pipe_ignores_stream_entry W self (body : Dict.t json) (v : json) :
  pipe W self (Dict.set "stream" v body) = pipe W self body.
Proof. unfold pipe. now rewrite set_set. Qed.





(** C3, as the code has it.  A request for streaming is answered like a
    request without it, by the plain string, because [pipe] overwrites the
    "stream" entry before it tests it.  The generator built by
    [stream_response] yields exactly one element, the string
    [non_stream_response] returns for the same headers and payload, and
    sends the same requests. *)
Theorem stream_response_yields_non_stream_result
  (W : World) (self : Pipe) (body : Dict.t json) (hdrs : Dict.t string)
  (payload : json) :
  pipe W self (Dict.set "stream" (JBool true) body)
  = pipe W self (Dict.set "stream" (JBool false) body)
  /\ (forall g,
         outcome (snd (pipe W self (Dict.set "stream" (JBool true) body)))
         <> inr (RGen g))
  /\ exists s,
       outcome (non_stream_response W self hdrs payload) = inr s
       /\ stream_response W self hdrs payload
          = (trace (non_stream_response W self hdrs payload), inr [s]).
Proof.
  split; [|split].
  - now rewrite !pipe_ignores_stream_entry.
  - intros g. apply pipe_no_generator.
  - destruct (non_stream_response_returns W self hdrs payload) as [s Hs].
    exists s. split; [exact Hs|].
    unfold stream_response.
    destruct (non_stream_response W self hdrs payload) as [t r].
    cbn [outcome snd] in Hs. subst r.
    cbn [bind ret trace fst]. now rewrite app_nil_r.
Qed.

(** C3 fails as stated: on a successful generation requested with
    "stream": True, [pipe] returns the string itself, not a lazy
    sequence. *)
Lemma pipe_stream_request_returns_string :
  outcome (snd (pipe png_world together (chat true)))
  = inr (RStr ("![Image](data:image/png;base64,iVBORw0KGgo=)" ++ PyStr.nl
               ++ "`GeneratedImage.png`"))
  /\ forall g,
       outcome (snd (pipe png_world together (chat true))) <> inr (RGen g).
Proof. split; [reflexivity | intros g; vm_compute; discriminate]. Qed.

(** C8.  [pipe] stores False under "stream" in the caller's dictionary and
    leaves the other entries alone; the test that follows reads that False,
    so no generator is ever returned and the result does not depend on the
    "stream" entry passed in; when the prompt and the fragment are there,
    what is returned is a plain string. *)
Theorem pipe_forces_stream_off
  (W : World) (self : Pipe) (body : Dict.t json) :
  fst (pipe W self body) = Dict.set "stream" (JBool false) body
  /\ Dict.get "stream" (fst (pipe W self body)) = Some (JBool false)
  /\ (forall k, String.eqb k "stream" = false ->
                Dict.get k (fst (pipe W self body)) = Dict.get k body)
  /\ py_truthy (Dict.get_default "stream" (JBool false) (fst (pipe W self body)))
     = false
  /\ (forall g, outcome (snd (pipe W self body)) <> inr (RGen g))
  /\ (forall v, pipe W self (Dict.set "stream" v body) = pipe W self body)
  /\ (forall messages prompt fragment,
         Dict.get "messages" body = Some messages ->
         get_last_user_message W messages = inr prompt ->
         eval_mapping W (fragment_source self) = inr fragment ->
         exists s, outcome (snd (pipe W self body)) = inr (RStr s)).
Proof.
  cbn [pipe fst]. repeat split.
  - apply get_set_same.
  - intros k H. now apply get_set_other.
  - unfold Dict.get_default. now rewrite get_set_same.
  - intros g. apply pipe_no_generator.
  - intros v. apply pipe_ignores_stream_entry.
  - intros messages prompt fragment. apply pipe_returns_string.
Qed.

(** C8 on a run that asked for streaming. *)
Lemma pipe_forces_stream_off_witness :
  Dict.get "stream" (fst (pipe png_world together (chat true)))
  = Some (JBool false)
  /\ exists s,
       outcome (snd (pipe png_world together (chat true))) = inr (RStr s).
Proof.
  destruct (pipe_forces_stream_off png_world together (chat true))
    as (_ & H1 & _ & _ & _ & _ & H2).
  split; [exact H1|].
  exact (H2 _ (JStr "a cat") _ eq_refl eq_refl eq_refl).
Defined.

(** ** The JSON normaliser *)

(** A successful result ends with the file name hint. *)
Lemma markdown_image_ends (uri ext : string) :
  PyStr.endswith ("`GeneratedImage." ++ ext ++ "`") (markdown_image uri ext)
  = true.
Proof.
  unfold markdown_image.
  set (hint := "`GeneratedImage." ++ ext ++ "`").
  rewrite <- !append_assoc. apply endswith_app.
Qed.

Lemma first_char_decides (p q d : string) (a b : ascii) :
  Ascii.eqb a b = false ->
  PyStr.startswith (String a p) d = true ->
  PyStr.startswith (String b q) d = false.
Proof.
  intros N. destruct d as [|c d]; [discriminate|]. simpl.
  intros H. apply andb_prop in H as [H _].
  apply Ascii.eqb_eq in H. subst c.
  rewrite Ascii.eqb_sym, N. reflexivity.
Qed.

(** What [get_img_extension] answers, by the way the data starts. *)
Lemma get_img_extension_cases (d : string) :
  (PyStr.startswith "/9j/" d = true -> get_img_extension d = Some "jpeg")
  /\ (PyStr.startswith "iVBOR" d = true -> get_img_extension d = Some "png")
  /\ (PyStr.startswith "R0lG" d = true -> get_img_extension d = Some "gif")
  /\ (PyStr.startswith "UklGR" d = true -> get_img_extension d = Some "webp")
  /\ (PyStr.startswith "/9j/" d = false ->
      PyStr.startswith "iVBOR" d = false ->
      PyStr.startswith "R0lG" d = false ->
      PyStr.startswith "UklGR" d = false ->
      get_img_extension d = None).
Proof.
  unfold get_img_extension. repeat split.
  - now intros ->.
  - intros H.
    rewrite (first_char_decides "VBOR" "9j/" d "i" "/" eq_refl H).
    now rewrite H.
  - intros H.
    rewrite (first_char_decides "0lG" "9j/" d "R" "/" eq_refl H).
    rewrite (first_char_decides "0lG" "VBOR" d "R" "i" eq_refl H).
    now rewrite H.
  - intros H.
    rewrite (first_char_decides "klGR" "9j/" d "U" "/" eq_refl H).
    rewrite (first_char_decides "klGR" "VBOR" d "U" "i" eq_refl H).
    rewrite (first_char_decides "klGR" "0lG" d "U" "R" eq_refl H).
    now rewrite H.
  - now intros -> -> -> ->.
Qed.

(** The slice [img_data[:9]] is long enough for every prefix tested. *)
Lemma get_img_extension_take (d : string) :
  get_img_extension (PyStr.take 9 d) = get_img_extension d.
Proof.
  unfold get_img_extension.
  rewrite !startswith_take by (simpl; lia). reflexivity.
Qed.

(** [handle_json_response] from the point where the image data is a
    string. *)
Lemma handle_json_response_with_data W self (response : Response)
  (resp : json) (t : list event) (s : string) :
  json_ response = inr resp ->
  json_img_data W self resp = (t, inr (Some (JStr s))) ->
  handle_json_response W self response
  = (t,
     inr match get_img_extension (strip_base64_prefix s) with
         | Some ext =>
             markdown_image
               ("data:image/" ++ ext ++ ";base64," ++ strip_base64_prefix s)
               ext
         | None =>
             "Error: Unsupported image format! " ++ PyStr.nl ++ PyStr.nl
             ++ " " ++ py_str W resp ++ " " ++ PyStr.nl ++ PyStr.nl ++ " "
             ++ strip_base64_prefix s
         end).
Proof.
  intros Hj Hd. unfold handle_json_response. rewrite Hj. cbn [lift bind].
  rewrite Hd. cbn [bind app]. unfold json_img_markdown.
  cbn [str_method lift bind app]. rewrite get_img_extension_take.
  destruct (get_img_extension (strip_base64_prefix s)) as [ext|];
    cbn [ret]; rewrite app_nil_r; [|reflexivity].
  unfold markdown_image. now rewrite !append_assoc.
Qed.

(** C4.  Let [s] be the string the JSON normaliser has obtained and
    [strip_base64_prefix s] the payload that reaches the sniffing step.  A
    payload that starts with "/9j/" is given the extension jpeg, with
    "iVBOR" png, with "R0lG" gif, with "UklGR" webp, and the normaliser
    returns the markdown for that extension; a payload that starts with
    none of them makes the normaliser return (not raise) a text containing
    "Unsupported image format", followed by the decoded response and the
    payload. *)
Theorem json_normalizer_sniffs_format
  (W : World) (self : Pipe) (response : Response) (resp : json)
  (t : list event) (s : string) :
  json_ response = inr resp ->
  json_img_data W self resp = (t, inr (Some (JStr s))) ->
  (PyStr.startswith "/9j/" (strip_base64_prefix s) = true ->
   get_img_extension (PyStr.take 9 (strip_base64_prefix s)) = Some "jpeg"
   /\ handle_json_response W self response
      = (t, inr (markdown_image
                   ("data:image/jpeg;base64," ++ strip_base64_prefix s)
                   "jpeg")))
  /\ (PyStr.startswith "iVBOR" (strip_base64_prefix s) = true ->
      get_img_extension (PyStr.take 9 (strip_base64_prefix s)) = Some "png"
      /\ handle_json_response W self response
         = (t, inr (markdown_image
                      ("data:image/png;base64," ++ strip_base64_prefix s)
                      "png")))
  /\ (PyStr.startswith "R0lG" (strip_base64_prefix s) = true ->
      get_img_extension (PyStr.take 9 (strip_base64_prefix s)) = Some "gif"
      /\ handle_json_response W self response
         = (t, inr (markdown_image
                      ("data:image/gif;base64," ++ strip_base64_prefix s)
                      "gif")))
  /\ (PyStr.startswith "UklGR" (strip_base64_prefix s) = true ->
      get_img_extension (PyStr.take 9 (strip_base64_prefix s)) = Some "webp"
      /\ handle_json_response W self response
         = (t, inr (markdown_image
                      ("data:image/webp;base64," ++ strip_base64_prefix s)
                      "webp")))
  /\ (PyStr.startswith "/9j/" (strip_base64_prefix s) = false ->
      PyStr.startswith "iVBOR" (strip_base64_prefix s) = false ->
      PyStr.startswith "R0lG" (strip_base64_prefix s) = false ->
      PyStr.startswith "UklGR" (strip_base64_prefix s) = false ->
      get_img_extension (PyStr.take 9 (strip_base64_prefix s)) = None
      /\ handle_json_response W self response
         = (t, inr ("Error: Unsupported image format! " ++ PyStr.nl
                    ++ PyStr.nl ++ " " ++ py_str W resp ++ " " ++ PyStr.nl
                    ++ PyStr.nl ++ " " ++ strip_base64_prefix s))
      /\ PyStr.contains "Unsupported image format"
           ("Error: Unsupported image format! " ++ PyStr.nl
            ++ PyStr.nl ++ " " ++ py_str W resp ++ " " ++ PyStr.nl
            ++ PyStr.nl ++ " " ++ strip_base64_prefix s)
         = true).
Proof.
  intros Hj Hd.
  rewrite (handle_json_response_with_data _ _ _ _ _ _ Hj Hd).
  rewrite get_img_extension_take.
  destruct (get_img_extension_cases (strip_base64_prefix s))
    as (J & P & G & Wp & N).
  repeat split; intros;
    try (rewrite J by assumption); try (rewrite P by assumption);
    try (rewrite G by assumption); try (rewrite Wp by assumption);
    try (rewrite N by assumption); reflexivity.
Qed.

(** The data/b64_json shape: the payload is read off the response and
    nothing is fetched. *)
Lemma json_img_data_b64_json W self (fields first : Dict.t json)
  (items : list json) (v : json) :
  Dict.get "output" fields = None ->
  Dict.get "data" fields = Some (JArr (JObj first :: items)) ->
  Dict.get "b64_json" first = Some v ->
  json_img_data W self (JObj fields) = ([], inr (Some v)).
Proof.
  intros Ho Hd Hb. unfold json_img_data, py_in, py_getitem, Dict.mem.
  rewrite Ho, Hd. cbn [lift bind py_getitem_0 app ret]. rewrite Hb.
  reflexivity.
Qed.

(** C4 on a response whose payload is neither of the four formats. *)
Lemma json_normalizer_sniffs_format_witness :
  handle_json_response (world_answering (inr (b64_reply "AAAA"))) together
    (b64_reply "AAAA")
  = ([],
     inr ("Error: Unsupported image format! " ++ PyStr.nl ++ PyStr.nl
          ++ " {'data': [{'b64_json': 'AAAA'}]} " ++ PyStr.nl ++ PyStr.nl
          ++ " AAAA")).
Proof.
  destruct (json_normalizer_sniffs_format
              (world_answering (inr (b64_reply "AAAA"))) together
              (b64_reply "AAAA") _ [] "AAAA" eq_refl eq_refl)
    as (_ & _ & _ & _ & H).
  exact (proj1 (proj2 (H eq_refl eq_refl eq_refl eq_refl))).
Defined.

Lemma png_payload_prefix (rest : list byte) :
  PyStr.startswith "iVBOR" (Base64.b64encode (png_magic ++ rest)) = true.
Proof. reflexivity. Qed.

(** C6.  For a decoded response without an "output" field whose "data"
    array starts with an object holding under "b64_json" the base64 text
    [p] of bytes that begin with the PNG signature, the JSON normaliser
    takes [p] itself as the payload, sends no request, and returns the
    markdown that embeds data:image/png;base64,[p] and ends with the
    GeneratedImage.png hint. *)
Theorem b64_json_png_payload_used_directly
  (W : World) (self : Pipe) (response : Response)
  (fields first : Dict.t json) (items : list json) (rest : list byte) :
  json_ response = inr (JObj fields) ->
  Dict.get "output" fields = None ->
  Dict.get "data" fields = Some (JArr (JObj first :: items)) ->
  Dict.get "b64_json" first
  = Some (JStr (Base64.b64encode (png_magic ++ rest))) ->
  strip_base64_prefix (Base64.b64encode (png_magic ++ rest))
  = Base64.b64encode (png_magic ++ rest)
  /\ handle_json_response W self response
     = ([],
        inr (markdown_image
               ("data:image/png;base64,"
                ++ Base64.b64encode (png_magic ++ rest))
               "png"))
  /\ fetches (handle_json_response W self response) = []
  /\ PyStr.contains
       ("data:image/png;base64," ++ Base64.b64encode (png_magic ++ rest))
       (markdown_image
          ("data:image/png;base64," ++ Base64.b64encode (png_magic ++ rest))
          "png")
     = true
  /\ PyStr.endswith "`GeneratedImage.png`"
       (markdown_image
          ("data:image/png;base64," ++ Base64.b64encode (png_magic ++ rest))
          "png")
     = true.
Proof.
  intros Hj Ho Hd Hb.
  pose proof (strip_absent _ (b64encode_no_marker (png_magic ++ rest))) as S.
  assert (E : handle_json_response W self response
              = ([], inr (markdown_image
                            ("data:image/png;base64,"
                             ++ Base64.b64encode (png_magic ++ rest))
                            "png"))).
  { rewrite (handle_json_response_with_data _ _ _ _ _ _ Hj
               (json_img_data_b64_json W self _ _ _ _ Ho Hd Hb)).
    rewrite S.
    rewrite (proj1 (proj2 (get_img_extension_cases _))
               (png_payload_prefix rest)).
    reflexivity. }
  split; [exact S|]. split; [exact E|]. split; [now rewrite E|]. split.
  - unfold markdown_image.
    apply (contains_middle _ "![Image](").
  - apply (markdown_image_ends _ "png").
Qed.

(** C6 on the signature alone. *)
Lemma b64_json_png_payload_used_directly_witness :
  handle_json_response png_world together
    (b64_reply (Base64.b64encode png_magic))
  = ([],
     inr ("![Image](data:image/png;base64,iVBORw0KGgo=)" ++ PyStr.nl
          ++ "`GeneratedImage.png`")).
Proof.
  exact (proj1 (proj2 (b64_json_png_payload_used_directly png_world together
                         (b64_reply (Base64.b64encode png_magic))
                         _ _ [] [] eq_refl eq_refl eq_refl eq_refl))).
Defined.

(** C10.  The prefix-stripping step keeps the second piece of the split at
    ";base64,".  When the marker occurs twice or more, what lies between
    the first and the second occurrence is kept and everything from the
    second occurrence on is dropped; when it occurs once, everything after
    it is kept; when it does not occur, the payload is unchanged. *)
Theorem strip_base64_prefix_keeps_second_piece (a b c : string) :
  PyStr.contains ";base64," a = false ->
  PyStr.contains ";base64," b = false ->
  strip_base64_prefix (a ++ ";base64," ++ b ++ ";base64," ++ c) = b
  /\ strip_base64_prefix (a ++ ";base64," ++ b) = b
  /\ strip_base64_prefix a = a.
Proof.
  intros Ha Hb. split; [|split].
  - now apply strip_second_piece.
  - now apply strip_only_piece.
  - now apply strip_absent.
Qed.

(** C10 on a data URI followed by a second marker. *)
Lemma strip_base64_prefix_keeps_second_piece_witness :
  strip_base64_prefix "data:image/png;base64,iVBORw0KGgo=;base64,AAAA"
  = "iVBORw0KGgo="
  /\ strip_base64_prefix "data:image/png;base64,iVBORw0KGgo=" = "iVBORw0KGgo="
  /\ strip_base64_prefix "data:image/png" = "data:image/png".
Proof.
  exact (strip_base64_prefix_keeps_second_piece
           "data:image/png" "iVBORw0KGgo=" "AAAA" eq_refl eq_refl).
Defined.

(** ** The raw-image normaliser *)

Lemma split_image_type (ext : string) :
  PyStr.contains "/" ext = false ->
  PyStr.split "/" ("image/" ++ ext) = ["image"; ext].
Proof.
  intros H. unfold PyStr.split.
  change ("image/" ++ ext) with ("image" ++ "/" ++ ext).
  rewrite (split_go_first "/" "image" ext "" slash_unbordered eq_refl).
  rewrite (split_go_absent _ _ _ H). reflexivity.
Qed.

(** C5.  The raw-image normaliser sends nothing and returns the markdown
    around data:[content type];base64,[payload], where the payload is the
    base64 text of the response bytes and decoding it gives those bytes
    back.  For a content type image/[ext] the file name hint that ends the
    output is GeneratedImage.[ext]; in general the extension is what
    follows the last slash of a content type containing "image/", and png
    when the content type does not contain it or the header is absent. *)
Theorem handle_image_response_round_trip (response : Response) (ext : string) :
  (header_get response "Content-Type" "" = "image/" ++ ext ->
   PyStr.contains "/" ext = false ->
   handle_image_response response
   = ([], inr (markdown_image
                 ("data:image/" ++ ext ++ ";base64,"
                  ++ Base64.b64encode (content response))
                 ext))
   /\ PyStr.endswith ("`GeneratedImage." ++ ext ++ "`")
        (markdown_image
           ("data:image/" ++ ext ++ ";base64,"
            ++ Base64.b64encode (content response))
           ext)
      = true)
  /\ (PyStr.contains "image/" (header_get response "Content-Type" "") = true ->
      handle_image_response response
      = ([], inr (markdown_image
                    ("data:" ++ header_get response "Content-Type" ""
                     ++ ";base64," ++ Base64.b64encode (content response))
                    (last (PyStr.split "/"
                             (header_get response "Content-Type" "")) ""))))
  /\ (PyStr.contains "image/" (header_get response "Content-Type" "") = false ->
      handle_image_response response
      = ([], inr (markdown_image
                    ("data:" ++ header_get response "Content-Type" ""
                     ++ ";base64," ++ Base64.b64encode (content response))
                    "png")))
  /\ (Dict.get_ci "Content-Type" (headers response) = None ->
      handle_image_response response
      = ([], inr (markdown_image
                    ("data:;base64," ++ Base64.b64encode (content response))
                    "png")))
  /\ Base64.b64decode (Base64.b64encode (content response))
     = Some (content response).
Proof.
  split; [|split; [|split; [|split]]].
  - intros H N. split; [|apply markdown_image_ends].
    unfold handle_image_response. rewrite H.
    rewrite (contains_here "image/" ("image/" ++ ext) (startswith_app _ _)).
    rewrite (split_image_type ext N).
    cbn [last ret]. unfold markdown_image. now rewrite !append_assoc.
  - intros H. unfold handle_image_response. rewrite H.
    unfold markdown_image, ret. now rewrite !append_assoc.
  - intros H. unfold handle_image_response. rewrite H.
    unfold markdown_image, ret. now rewrite !append_assoc.
  - intros H. unfold handle_image_response, header_get. rewrite H.
    reflexivity.
  - apply b64decode_b64encode.
Qed.

(** C5 on a WebP answer of three bytes. *)
Lemma handle_image_response_round_trip_witness :
  handle_image_response
    (ok_response "image/webp" [x52; x49; x46]%byte (inl not_json))
  = ([], inr ("![Image](data:image/webp;base64,UklG)" ++ PyStr.nl
              ++ "`GeneratedImage.webp`"))
  /\ Base64.b64decode "UklG" = Some [x52; x49; x46]%byte.
Proof.
  destruct (handle_image_response_round_trip
              (ok_response "image/webp" [x52; x49; x46]%byte (inl not_json))
              "webp") as (H & _ & _ & _ & R).
  split; [exact (proj1 (H eq_refl eq_refl)) | exact R].
Defined.

(** ** Responses of an unexpected shape *)

Lemma raise_for_status_ok (r : Response) :
  (status_code r < 400 \/ 600 <= status_code r)%Z ->
  raise_for_status r = ret tt.
Proof.
  intros H. unfold raise_for_status.
  destruct (Z.leb_spec 400 (status_code r)), (Z.ltb_spec (status_code r) 500),
    (Z.leb_spec 500 (status_code r)), (Z.ltb_spec (status_code r) 600);
    cbn [andb]; try reflexivity; lia.
Qed.

(** C7.  The text returned for a decoded response of neither shape is the
    source literal, braces included: on the response
    [{'error': 'model overloaded'}] it does not contain the decoded
    response. *)
Theorem unexpected_format_text_lacks_response :
  handle_json_response png_world together
    (ok_response "application/json" []
       (inr (JObj [("error", JStr "model overloaded")])))
  = ([], inr "Error: Unexpected response format for the image provider! {resp}")
  /\ py_str png_world (JObj [("error", JStr "model overloaded")])
     = "{'error': 'model overloaded'}"
  /\ PyStr.contains "{'error': 'model overloaded'}"
       "Error: Unexpected response format for the image provider! {resp}"
     = false
  /\ PyStr.contains "model overloaded" unexpected_format = false.
Proof. repeat split. Qed.

(** C9.  When the POST is answered with a JSON body that is an object
    whose "output" field is an empty array, or that has no "output" field
    and whose "data" field is an empty array, the access to the first
    element raises [IndexError] inside the JSON normaliser;
    [non_stream_response] catches it in its last handler and returns
    "Error: list index out of range", which is not the text of the
    unexpected-format branch. *)
Theorem empty_array_gives_generic_error
  (W : World) (self : Pipe) (hdrs : Dict.t string) (payload : json)
  (response : Response) (fields : Dict.t json) :
  requests_post W (FLUX_SCHNELL_API_BASE_URL (valves self)) hdrs payload
  = inr response ->
  (status_code response < 400 \/ 600 <= status_code response)%Z ->
  PyStr.contains "application/json" (header_get response "Content-Type" "")
  = true ->
  json_ response = inr (JObj fields) ->
  Dict.get "output" fields = Some (JArr [])
  \/ (Dict.get "output" fields = None
      /\ Dict.get "data" fields = Some (JArr [])) ->
  handle_json_response W self response
  = ([], inl (Raise IndexError "list index out of range"))
  /\ non_stream_response W self hdrs payload
     = ([EPost (FLUX_SCHNELL_API_BASE_URL (valves self)) hdrs payload],
        inr ("Error: " ++ exn_msg (Raise IndexError "list index out of range")))
  /\ "Error: " ++ exn_msg (Raise IndexError "list index out of range")
     <> unexpected_format
  /\ PyStr.contains "Unexpected response format"
       ("Error: " ++ exn_msg (Raise IndexError "list index out of range"))
     = false.
Proof.
  intros Hp Hs Hc Hj Hshape.
  assert (E : handle_json_response W self response
              = ([], inl (Raise IndexError "list index out of range"))).
  { unfold handle_json_response. rewrite Hj. cbn [lift bind].
    unfold json_img_data, py_in, py_getitem, Dict.mem.
    destruct Hshape as [Ho | [Ho Hd]]; rewrite Ho; [|rewrite Hd]; reflexivity. }
  split; [exact E|]. split; [|split; [discriminate | reflexivity]].
  unfold non_stream_response. cbn [emit bind]. rewrite Hp. cbn [lift bind].
  rewrite (raise_for_status_ok _ Hs). cbn [ret bind]. rewrite Hc, E.
  reflexivity.
Qed.

(** C9 on an answer whose "data" array is empty. *)
Lemma empty_array_gives_generic_error_witness :
  non_stream_response
    (world_answering
       (inr (ok_response "application/json" [] (inr (JObj [("data", JArr [])])))))
    together [] JNull
  = ([EPost "https://api.together.xyz/v1/images/generations" [] JNull],
     inr "Error: list index out of range").
Proof.
  refine (proj1 (proj2 (empty_array_gives_generic_error
                          (world_answering
                             (inr (ok_response "application/json" []
                                     (inr (JObj [("data", JArr [])])))))
                          together [] JNull _ _ eq_refl _ eq_refl eq_refl
                          (or_intror (conj eq_refl eq_refl))))).
  left. reflexivity.
Defined.

(** * Further properties of the adapter *)

(** ** The follow-up fetch *)

Lemma raise_for_status_error (r : Response) :
  (400 <= status_code r < 600)%Z ->
  raise_for_status r = raise (http_error r).
Proof.
  intros H. unfold raise_for_status, http_error.
  destruct (Z.leb_spec 400 (status_code r)), (Z.ltb_spec (status_code r) 500),
    (Z.leb_spec 500 (status_code r)), (Z.ltb_spec (status_code r) 600);
    cbn [andb]; try reflexivity; lia.
Qed.

Lemma trace_raise_for_status (r : Response) : trace (raise_for_status r) = [].
Proof.
  unfold raise_for_status.
  destruct (_ && _); [reflexivity|]. destruct (_ && _); reflexivity.
Qed.

Lemma trace_url_to_img_data W self (u : json) :
  trace (url_to_img_data W self u) = [EGet u (bearer self)].
Proof.
  unfold url_to_img_data. fold (bearer self).
  rewrite trace_bind. cbn [emit trace outcome fst snd].
  rewrite trace_bind. cbn [lift trace outcome fst snd app].
  destruct (requests_get W u (bearer self)) as [e|r]; [reflexivity|].
  rewrite trace_bind, trace_raise_for_status.
  destruct (outcome (raise_for_status r)); reflexivity.
Qed.

Lemma url_to_img_data_ok W self (u : json) (fetched : Response) :
  requests_get W u (bearer self) = inr fetched ->
  (status_code fetched < 400 \/ 600 <= status_code fetched)%Z ->
  url_to_img_data W self u
  = ([EGet u (bearer self)],
     inr ("data:" ++ header_get fetched "Content-Type" "application/octet-stream"
          ++ ";base64," ++ Base64.b64encode (content fetched))).
Proof.
  intros Hg Hs. unfold url_to_img_data. fold (bearer self).
  cbn [emit bind]. rewrite Hg. cbn [lift bind].
  rewrite (raise_for_status_ok _ Hs). reflexivity.
Qed.

Lemma url_to_img_data_raises W self (u : json) (e : exn) :
  requests_get W u (bearer self) = inl e ->
  url_to_img_data W self u = ([EGet u (bearer self)], inl e).
Proof.
  intros Hg. unfold url_to_img_data. fold (bearer self).
  cbn [emit bind]. rewrite Hg. reflexivity.
Qed.

Lemma url_to_img_data_error_status W self (u : json) (fetched : Response) :
  requests_get W u (bearer self) = inr fetched ->
  (400 <= status_code fetched < 600)%Z ->
  url_to_img_data W self u = ([EGet u (bearer self)], inl (http_error fetched)).
Proof.
  intros Hg Hs. unfold url_to_img_data. fold (bearer self).
  cbn [emit bind]. rewrite Hg. cbn [lift bind].
  rewrite (raise_for_status_error _ Hs). reflexivity.
Qed.

(** Where the image data comes from when "output" is an array with a first
    element. *)
Lemma json_img_data_output W self (fields : Dict.t json) (u : json)
  (items : list json) :
  Dict.get "output" fields = Some (JArr (u :: items)) ->
  json_img_data W self (JObj fields)
  = (trace (url_to_img_data W self u),
     match outcome (url_to_img_data W self u) with
     | inr s => inr (Some (JStr s))
     | inl e => inl e
     end).
Proof.
  intros Ho. unfold json_img_data, py_in, py_getitem, Dict.mem.
  rewrite Ho. cbn [lift bind py_getitem_0 app].
  destruct (url_to_img_data W self u) as [t [e|s]]; cbn [bind ret trace outcome fst snd].
  - reflexivity.
  - now rewrite app_nil_r.
Qed.

(** A data URI whose media type does not hold the marker is cut back to
    its base64 text. *)
Lemma strip_data_uri (mime : string) (bytes : list byte) :
  PyStr.contains ";base64," mime = false ->
  strip_base64_prefix ("data:" ++ mime ++ ";base64," ++ Base64.b64encode bytes)
  = Base64.b64encode bytes.
Proof.
  intros H.
  change ("data:" ++ mime ++ ";base64," ++ Base64.b64encode bytes)
    with (("data:" ++ mime) ++ ";base64," ++ Base64.b64encode bytes).
  apply strip_only_piece; [|apply b64encode_no_marker].
  cbn [append PyStr.contains PyStr.startswith]. cbn. exact H.
Qed.

Lemma handle_json_response_sniffed W self (response : Response) (resp : json)
  (t : list event) (s : string) :
  json_ response = inr resp ->
  json_img_data W self resp = (t, inr (Some (JStr s))) ->
  handle_json_response W self response
  = (t, inr (sniffed W resp (strip_base64_prefix s))).
Proof.
  intros Hj Hd. now rewrite (handle_json_response_with_data _ _ _ _ _ _ Hj Hd).
Qed.

Lemma handle_json_response_raises W self (response : Response) (resp : json)
  (t : list event) (e : exn) :
  json_ response = inr resp ->
  json_img_data W self resp = (t, inl e) ->
  handle_json_response W self response = (t, inl e).
Proof.
  intros Hj Hd. unfold handle_json_response. rewrite Hj. cbn [lift bind].
  rewrite Hd. reflexivity.
Qed.

(** [non_stream_response] on a JSON answer: the POST, then what the JSON
    normaliser does, its exceptions turned into text. *)
Lemma non_stream_response_json W self (hdrs : Dict.t string) (payload : json)
  (response : Response) :
  requests_post W (FLUX_SCHNELL_API_BASE_URL (valves self)) hdrs payload
  = inr response ->
  (status_code response < 400 \/ 600 <= status_code response)%Z ->
  PyStr.contains "application/json" (header_get response "Content-Type" "")
  = true ->
  non_stream_response W self hdrs payload
  = (EPost (FLUX_SCHNELL_API_BASE_URL (valves self)) hdrs payload
       :: trace (handle_json_response W self response),
     inr match outcome (handle_json_response W self response) with
         | inr s => s
         | inl e => caught e
         end).
Proof.
  intros Hp Hs Hc. unfold non_stream_response. cbn [emit bind].
  rewrite Hp. cbn [lift bind]. rewrite (raise_for_status_ok _ Hs).
  cbn [ret bind]. rewrite Hc.
  destruct (handle_json_response W self response) as [t [e|s]];
    cbn [try_except trace outcome fst snd app]; [|reflexivity].
  unfold caught. destruct (is_request_exception e); cbn [ret];
    now rewrite app_nil_r.
Qed.

(** X1.  When the decoded response has an "output" array, its first
    element is fetched with one GET that carries the bearer token; if the
    fetch succeeds and its content type does not itself contain
    ";base64,", the payload that is sniffed is the base64 text of the
    fetched bytes: the extension comes from the bytes, and the content type
    the fetch declared is dropped. *)
Theorem output_url_is_fetched_and_sniffed
  (W : World) (self : Pipe) (response fetched : Response)
  (fields : Dict.t json) (u : json) (items : list json) :
  json_ response = inr (JObj fields) ->
  Dict.get "output" fields = Some (JArr (u :: items)) ->
  requests_get W u (bearer self) = inr fetched ->
  (status_code fetched < 400 \/ 600 <= status_code fetched)%Z ->
  PyStr.contains ";base64,"
    (header_get fetched "Content-Type" "application/octet-stream") = false ->
  handle_json_response W self response
  = ([EGet u (bearer self)],
     inr (sniffed W (JObj fields) (Base64.b64encode (content fetched)))).
Proof.
  intros Hj Ho Hg Hs Hc.
  pose proof (json_img_data_output W self fields u items Ho) as D.
  rewrite (url_to_img_data_ok _ _ _ _ Hg Hs) in D. cbn [trace outcome fst snd] in D.
  rewrite (handle_json_response_sniffed _ _ _ _ _ _ Hj D).
  now rewrite (strip_data_uri _ _ Hc).
Qed.

Lemma output_url_is_fetched_and_sniffed_witness :
  handle_json_response (jpeg_host jpeg_magic) together
    (ok_response "application/json" []
       (inr (JObj [("output", JArr [JStr "http://x/y.png"])])))
  = ([EGet (JStr "http://x/y.png") [("Authorization", "Bearer k")]],
     inr ("![Image](data:image/jpeg;base64,/9j/)" ++ PyStr.nl
          ++ "`GeneratedImage.jpeg`")).
Proof.
  refine (output_url_is_fetched_and_sniffed (jpeg_host jpeg_magic) together
            (ok_response "application/json" []
               (inr (JObj [("output", JArr [JStr "http://x/y.png"])])))
            (ok_response "application/octet-stream" jpeg_magic (inl not_json))
            _ (JStr "http://x/y.png") [] eq_refl eq_refl eq_refl _ eq_refl).
  left. reflexivity.
Defined.

(** X2.  A follow-up fetch that fails is reported as a failed request:
    when [requests.get] raises, or answers with a 4xx or 5xx status,
    [non_stream_response] has sent the POST and the GET and returns the
    text made of the exception, "Error: Request failed: ..." for a request
    exception. *)
Theorem failed_fetch_is_reported
  (W : World) (self : Pipe) (hdrs : Dict.t string) (payload : json)
  (response : Response) (fields : Dict.t json) (u : json) (items : list json) :
  requests_post W (FLUX_SCHNELL_API_BASE_URL (valves self)) hdrs payload
  = inr response ->
  (status_code response < 400 \/ 600 <= status_code response)%Z ->
  PyStr.contains "application/json" (header_get response "Content-Type" "")
  = true ->
  json_ response = inr (JObj fields) ->
  Dict.get "output" fields = Some (JArr (u :: items)) ->
  (forall e,
      requests_get W u (bearer self) = inl e ->
      non_stream_response W self hdrs payload
      = ([EPost (FLUX_SCHNELL_API_BASE_URL (valves self)) hdrs payload;
          EGet u (bearer self)],
         inr (caught e)))
  /\ (forall fetched,
         requests_get W u (bearer self) = inr fetched ->
         (400 <= status_code fetched < 600)%Z ->
         non_stream_response W self hdrs payload
         = ([EPost (FLUX_SCHNELL_API_BASE_URL (valves self)) hdrs payload;
             EGet u (bearer self)],
            inr ("Error: Request failed: " ++ exn_msg (http_error fetched)))).
Proof.
  intros Hp Hs Hc Hj Ho.
  pose proof (json_img_data_output W self fields u items Ho) as D.
  rewrite (non_stream_response_json _ _ _ _ _ Hp Hs Hc).
  split.
  - intros e Hg. rewrite (url_to_img_data_raises _ _ _ _ Hg) in D.
    cbn [trace outcome fst snd] in D.
    now rewrite (handle_json_response_raises _ _ _ _ _ _ Hj D).
  - intros fetched Hg Hf.
    rewrite (url_to_img_data_error_status _ _ _ _ Hg Hf) in D.
    cbn [trace outcome fst snd] in D.
    now rewrite (handle_json_response_raises _ _ _ _ _ _ Hj D).
Qed.

Lemma failed_fetch_is_reported_witness :
  non_stream_response
    (world_of (inr (output_reply "http://x/y.png"))
       (inr (status_response 404 "Not Found" "text/html" (inl not_json))))
    together [] JNull
  = ([EPost "https://api.together.xyz/v1/images/generations" [] JNull;
      EGet (JStr "http://x/y.png") [("Authorization", "Bearer k")]],
     inr "Error: Request failed: 404 Client Error: Not Found for url: https://api.together.xyz/v1/images/generations").
Proof.
  assert (S : (status_code (output_reply "http://x/y.png") < 400
               \/ 600 <= status_code (output_reply "http://x/y.png"))%Z)
    by (left; reflexivity).
  refine (proj2 (failed_fetch_is_reported
                   (world_of (inr (output_reply "http://x/y.png"))
                      (inr (status_response 404 "Not Found" "text/html"
                              (inl not_json))))
                   together [] JNull (output_reply "http://x/y.png") _
                   (JStr "http://x/y.png") [] eq_refl S eq_refl eq_refl eq_refl)
            _ eq_refl _).
  cbn. lia.
Defined.

(** X3.  A POST answered with a 4xx or 5xx status is reported as a failed
    request, with the status, the reason and the URL of the answer; the body
    of the answer is not looked at, whatever its content type, and nothing
    is fetched. *)
Theorem post_error_status_is_reported
  (W : World) (self : Pipe) (hdrs : Dict.t string) (payload : json)
  (response : Response) :
  requests_post W (FLUX_SCHNELL_API_BASE_URL (valves self)) hdrs payload
  = inr response ->
  (400 <= status_code response < 600)%Z ->
  non_stream_response W self hdrs payload
  = ([EPost (FLUX_SCHNELL_API_BASE_URL (valves self)) hdrs payload],
     inr ("Error: Request failed: "
          ++ PyStr.str_of_Z (status_code response) ++ " "
          ++ (if (status_code response <? 500)%Z then "Client" else "Server")
          ++ " Error: " ++ reason response ++ " for url: " ++ url response)).
Proof.
  intros Hp Hs. unfold non_stream_response. cbn [emit bind].
  rewrite Hp. cbn [lift bind]. rewrite (raise_for_status_error _ Hs).
  reflexivity.
Qed.

Lemma post_error_status_is_reported_witness :
  non_stream_response
    (world_of
       (inr (status_response 503 "Service Unavailable" "application/json"
               (inr (JObj [("data", JArr [JObj [("b64_json", JStr "iVBORw0KGgo=")]])]))))
       (inl not_json))
    together [] JNull
  = ([EPost "https://api.together.xyz/v1/images/generations" [] JNull],
     inr "Error: Request failed: 503 Server Error: Service Unavailable for url: https://api.together.xyz/v1/images/generations").
Proof.
  refine (post_error_status_is_reported
            (world_of
               (inr (status_response 503 "Service Unavailable" "application/json"
                       (inr (JObj [("data",
                                    JArr [JObj [("b64_json",
                                                 JStr "iVBORw0KGgo=")]])]))))
               (inl not_json))
            together [] JNull _ eq_refl _).
  cbn. lia.
Defined.

(** X4.  The answer is dispatched on its content type in this order: one
    containing "application/json" goes to the JSON normaliser even when it
    also contains "image/"; one containing "image/" only goes to the
    raw-image normaliser; any other one, an absent header included, gives
    "Error: Unsupported content type" followed by the content type, and
    neither normaliser runs. *)
Theorem content_type_dispatch
  (W : World) (self : Pipe) (hdrs : Dict.t string) (payload : json)
  (response : Response) :
  requests_post W (FLUX_SCHNELL_API_BASE_URL (valves self)) hdrs payload
  = inr response ->
  (status_code response < 400 \/ 600 <= status_code response)%Z ->
  (PyStr.contains "application/json" (header_get response "Content-Type" "")
   = true ->
   non_stream_response W self hdrs payload
   = (EPost (FLUX_SCHNELL_API_BASE_URL (valves self)) hdrs payload
        :: trace (handle_json_response W self response),
      inr match outcome (handle_json_response W self response) with
          | inr s => s
          | inl e => caught e
          end))
  /\ (PyStr.contains "application/json" (header_get response "Content-Type" "")
      = false ->
      PyStr.contains "image/" (header_get response "Content-Type" "") = true ->
      non_stream_response W self hdrs payload
      = ([EPost (FLUX_SCHNELL_API_BASE_URL (valves self)) hdrs payload],
         outcome (handle_image_response response)))
  /\ (PyStr.contains "application/json" (header_get response "Content-Type" "")
      = false ->
      PyStr.contains "image/" (header_get response "Content-Type" "") = false ->
      non_stream_response W self hdrs payload
      = ([EPost (FLUX_SCHNELL_API_BASE_URL (valves self)) hdrs payload],
         inr ("Error: Unsupported content type "
              ++ header_get response "Content-Type" "")))
  /\ (Dict.get_ci "Content-Type" (headers response) = None ->
      non_stream_response W self hdrs payload
      = ([EPost (FLUX_SCHNELL_API_BASE_URL (valves self)) hdrs payload],
         inr "Error: Unsupported content type ")).
Proof.
  intros Hp Hs. split; [|split; [|split]].
  - intros Hc. exact (non_stream_response_json _ _ _ _ _ Hp Hs Hc).
  - intros Hj Hi. unfold non_stream_response. cbn [emit bind].
    rewrite Hp. cbn [lift bind]. rewrite (raise_for_status_ok _ Hs).
    cbn [ret bind]. rewrite Hj, Hi. reflexivity.
  - intros Hj Hi. unfold non_stream_response. cbn [emit bind].
    rewrite Hp. cbn [lift bind]. rewrite (raise_for_status_ok _ Hs).
    cbn [ret bind]. rewrite Hj, Hi. reflexivity.
  - intros Hn. unfold non_stream_response. cbn [emit bind].
    rewrite Hp. cbn [lift bind]. rewrite (raise_for_status_ok _ Hs).
    cbn [ret bind]. unfold header_get. rewrite Hn. reflexivity.
Qed.

Lemma content_type_dispatch_witness :
  non_stream_response
    (world_of
       (inr (ok_response "application/json; image/png" []
               (inr (JObj [("data", JArr [JObj [("b64_json", JStr "R0lGODlh")]])]))))
       (inl not_json))
    together [] JNull
  = ([EPost "https://api.together.xyz/v1/images/generations" [] JNull],
     inr ("![Image](data:image/gif;base64,R0lGODlh)" ++ PyStr.nl
          ++ "`GeneratedImage.gif`")).
Proof.
  assert (S : (200 < 400 \/ 600 <= 200)%Z) by (left; reflexivity).
  exact (proj1 (content_type_dispatch
                  (world_of
                     (inr (ok_response "application/json; image/png" []
                             (inr (JObj [("data",
                                          JArr [JObj [("b64_json",
                                                       JStr "R0lGODlh")]])]))))
                     (inl not_json))
                  together [] JNull _ eq_refl S) eq_refl).
Defined.

(** ** What the sniffing accepts *)

Section Signatures.

Import Base64.

(** A text that starts with four digits that are no padding encodes at
    least three bytes, and the four digits encode the first three. *)
Lemma starts_with_group (c1 c2 c3 c4 : ascii) (p : string) (bs : list byte) :
  Ascii.eqb c3 "=" = false -> Ascii.eqb c4 "=" = false ->
  PyStr.startswith (String c1 (String c2 (String c3 (String c4 p))))
    (b64encode bs) = true ->
  exists a b c rest,
    bs = a :: b :: c :: rest
    /\ b64encode [a; b; c] = String c1 (String c2 (String c3 (String c4 "")))
    /\ PyStr.startswith p (b64encode rest) = true.
Proof.
  intros N3 N4 H.
  destruct bs as [|a [|b [|c rest]]]; cbn [b64encode PyStr.startswith] in H.
  - discriminate.
  - rewrite N3, !andb_false_r in H. discriminate.
  - rewrite N4, !andb_false_r in H. discriminate.
  - apply andb_prop in H as [H1 H]. apply andb_prop in H as [H2 H].
    apply andb_prop in H as [H3 H]. apply andb_prop in H as [H4 H].
    apply Ascii.eqb_eq in H1, H2, H3, H4.
    exists a, b, c, rest. repeat split; [|exact H].
    cbn [b64encode]. now rewrite <- H1, <- H2, <- H3, <- H4.
Qed.

Lemma group_injective (a b c a' b' c' : byte) :
  b64encode [a; b; c] = b64encode [a'; b'; c'] -> [a; b; c] = [a'; b'; c'].
Proof.
  intros H. pose proof (b64decode_b64encode [a; b; c]) as D.
  rewrite H, b64decode_b64encode in D. now injection D as -> -> ->.
Qed.

(** The first digit of what encodes a non-empty byte list. *)
Lemma first_digit (d : byte) (rest : list byte) :
  exists tail,
    b64encode (d :: rest) = String (digit_char (code d / 4)%N) tail.
Proof. destruct rest as [|e [|f rest]]; cbn [b64encode]; eauto. Qed.

Lemma starts_with_R (bs : list byte) :
  PyStr.startswith "R" (b64encode bs) = true
  <-> exists d rest, bs = d :: rest /\ (68 <= code d <= 71)%N.
Proof.
  split.
  - destruct bs as [|d rest]; [discriminate|].
    destruct (first_digit d rest) as [tail ->].
    cbn [PyStr.startswith]. rewrite andb_true_r. intros H.
    apply Ascii.eqb_eq in H.
    pose proof (digit_round _ (sextet1 d)) as R. rewrite <- H in R.
    change (char_digit "R") with (Some 17%N) in R. injection R as R.
    exists d, rest. split; [reflexivity|].
    pose proof (code_bound d). generalize dependent (code d). intros n R B.
    zify. Z.to_euclidean_division_equations. lia.
  - intros (d & rest & -> & B).
    destruct (first_digit d rest) as [tail ->].
    replace (code d / 4)%N with 17%N; [reflexivity|].
    generalize dependent (code d). intros n B.
    zify. Z.to_euclidean_division_equations. lia.
Qed.

Lemma sniffed_jpeg (d : string) :
  get_img_extension d = Some "jpeg" <-> PyStr.startswith "/9j/" d = true.
Proof.
  split; [|apply get_img_extension_cases].
  unfold get_img_extension.
  destruct (PyStr.startswith "/9j/" d); [reflexivity|].
  destruct (PyStr.startswith "iVBOR" d); [discriminate|].
  destruct (PyStr.startswith "R0lG" d); [discriminate|].
  destruct (PyStr.startswith "UklGR" d); discriminate.
Qed.

Lemma sniffed_png (d : string) :
  get_img_extension d = Some "png" <-> PyStr.startswith "iVBOR" d = true.
Proof.
  split; [|apply get_img_extension_cases].
  unfold get_img_extension.
  destruct (PyStr.startswith "/9j/" d); [discriminate|].
  destruct (PyStr.startswith "iVBOR" d); [reflexivity|].
  destruct (PyStr.startswith "R0lG" d); [discriminate|].
  destruct (PyStr.startswith "UklGR" d); discriminate.
Qed.

Lemma sniffed_gif (d : string) :
  get_img_extension d = Some "gif" <-> PyStr.startswith "R0lG" d = true.
Proof.
  split; [|apply get_img_extension_cases].
  unfold get_img_extension.
  destruct (PyStr.startswith "/9j/" d); [discriminate|].
  destruct (PyStr.startswith "iVBOR" d); [discriminate|].
  destruct (PyStr.startswith "R0lG" d); [reflexivity|].
  destruct (PyStr.startswith "UklGR" d); discriminate.
Qed.

Lemma sniffed_webp (d : string) :
  get_img_extension d = Some "webp" <-> PyStr.startswith "UklGR" d = true.
Proof.
  split; [|apply get_img_extension_cases].
  unfold get_img_extension.
  destruct (PyStr.startswith "/9j/" d); [discriminate|].
  destruct (PyStr.startswith "iVBOR" d); [discriminate|].
  destruct (PyStr.startswith "R0lG" d); [discriminate|].
  destruct (PyStr.startswith "UklGR" d); [reflexivity | discriminate].
Qed.

(** The bytes behind a four-digit prefix. *)
Lemma starts_with_signature (g : list byte) (a b c : byte)
  (c1 c2 c3 c4 : ascii) (p : string) (bs : list byte) :
  g = [a; b; c] ->
  b64encode g = String c1 (String c2 (String c3 (String c4 ""))) ->
  Ascii.eqb c3 "=" = false -> Ascii.eqb c4 "=" = false ->
  PyStr.startswith (String c1 (String c2 (String c3 (String c4 p))))
    (b64encode bs) = true
  <-> exists rest,
        bs = (g ++ rest)%list /\ PyStr.startswith p (b64encode rest) = true.
Proof.
  intros -> E N3 N4. split.
  - intros H.
    destruct (starts_with_group _ _ _ _ _ _ N3 N4 H)
      as (a' & b' & c' & rest & -> & G & P).
    rewrite <- E in G. apply group_injective in G.
    injection G as -> -> ->. exists rest. split; [reflexivity | exact P].
  - intros (rest & -> & P). cbn [app b64encode] in *.
    injection E as <- <- <- <-. cbn [PyStr.startswith].
    now rewrite !Ascii.eqb_refl, P.
Qed.

End Signatures.

(** X5.  The extension the sniffing step gives to the base64 text of
    bytes [bs] is jpeg exactly when [bs] starts with FF D8 FF, and gif
    exactly when [bs] starts with the three characters GIF. *)
Theorem jpeg_and_gif_tests_are_exact (bs : list byte) :
  (get_img_extension (PyStr.take 9 (Base64.b64encode bs)) = Some "jpeg"
   <-> exists rest, bs = (jpeg_magic ++ rest)%list)
  /\ (get_img_extension (PyStr.take 9 (Base64.b64encode bs)) = Some "gif"
      <-> exists rest, bs = (gif_magic ++ rest)%list).
Proof.
  rewrite get_img_extension_take, sniffed_jpeg, sniffed_gif.
  rewrite (starts_with_signature jpeg_magic _ _ _ "/" "9" "j" "/" ""
             bs eq_refl eq_refl eq_refl eq_refl).
  rewrite (starts_with_signature gif_magic _ _ _ "R" "0" "l" "G" ""
             bs eq_refl eq_refl eq_refl eq_refl).
  split; split; intros (rest & H); exists rest; try tauto; split; tauto.
Qed.

(** X6.  The tests for png and webp read five base64 digits, that is
    thirty bits: the text of [bs] is given png exactly when [bs] starts
    with 89 50 4E followed by a byte from 44 to 47 (hexadecimal), and webp
    exactly when it starts with the characters RIF followed by such a byte;
    so every file with a PNG signature is png and every RIFF file is
    webp. *)
Theorem png_and_webp_tests_read_thirty_bits (bs : list byte) :
  (get_img_extension (PyStr.take 9 (Base64.b64encode bs)) = Some "png"
   <-> exists d rest,
         bs = ([x89; x50; x4e]%byte ++ d :: rest)%list
         /\ (68 <= Base64.code d <= 71)%N)
  /\ (get_img_extension (PyStr.take 9 (Base64.b64encode bs)) = Some "webp"
      <-> exists d rest,
            bs = ([x52; x49; x46]%byte ++ d :: rest)%list
            /\ (68 <= Base64.code d <= 71)%N)
  /\ (forall rest,
         get_img_extension
           (PyStr.take 9 (Base64.b64encode (png_magic ++ rest)))
         = Some "png")
  /\ (forall rest,
         get_img_extension
           (PyStr.take 9 (Base64.b64encode (riff_magic ++ rest)))
         = Some "webp").
Proof.
  assert (P : forall sig a b c c1 c2 c3 c4,
             sig = [a; b; c] ->
             Base64.b64encode sig = String c1 (String c2 (String c3 (String c4 ""))) ->
             Ascii.eqb c3 "=" = false -> Ascii.eqb c4 "=" = false ->
             forall l,
               PyStr.startswith (String c1 (String c2 (String c3 (String c4 "R"))))
                 (Base64.b64encode l) = true
               <-> exists d rest,
                     l = (sig ++ d :: rest)%list
                     /\ (68 <= Base64.code d <= 71)%N).
  { intros sig a b c c1 c2 c3 c4 S E N3 N4 l.
    rewrite (starts_with_signature sig a b c c1 c2 c3 c4 "R" l S E N3 N4).
    split.
    - intros (rest & -> & H). apply starts_with_R in H as (d & r & -> & B).
      exists d, r. now split.
    - intros (d & r & -> & B). exists (d :: r). split; [reflexivity|].
      apply starts_with_R. exists d, r. now split. }
  assert (Png := P [x89; x50; x4e]%byte _ _ _ "i"%char "V"%char "B"%char "O"%char
                   eq_refl eq_refl eq_refl eq_refl).
  assert (Webp := P [x52; x49; x46]%byte _ _ _ "U"%char "k"%char "l"%char "G"%char
                    eq_refl eq_refl eq_refl eq_refl).
  split; [|split; [|split]].
  - rewrite get_img_extension_take, sniffed_png. apply Png.
  - rewrite get_img_extension_take, sniffed_webp. apply Webp.
  - intros rest. rewrite get_img_extension_take, sniffed_png.
    apply Png. exists x47%byte, ([x0d; x0a; x1a; x0a]%byte ++ rest)%list.
    split; [reflexivity|]. cbn. lia.
  - intros rest. rewrite get_img_extension_take, sniffed_webp.
    apply Webp. exists x46%byte, rest.
    split; [reflexivity|]. cbn. lia.
Qed.

(** ** Payloads of other shapes *)

(** X7.  A "b64_json" value that is a data URI, data:[mime];base64,[text],
    is cut back to [text] before the sniffing, and the result is built
    from [text] alone: the media type the provider wrote is dropped and the
    one of the sniffed format takes its place.  Nothing is fetched. *)
Theorem data_uri_payload_is_rewrapped
  (W : World) (self : Pipe) (response : Response)
  (fields first : Dict.t json) (items : list json) (mime : string)
  (bytes : list byte) :
  json_ response = inr (JObj fields) ->
  Dict.get "output" fields = None ->
  Dict.get "data" fields = Some (JArr (JObj first :: items)) ->
  Dict.get "b64_json" first
  = Some (JStr ("data:" ++ mime ++ ";base64," ++ Base64.b64encode bytes)) ->
  PyStr.contains ";base64," mime = false ->
  handle_json_response W self response
  = ([], inr (sniffed W (JObj fields) (Base64.b64encode bytes))).
Proof.
  intros Hj Ho Hd Hb Hm.
  rewrite (handle_json_response_sniffed _ _ _ _ _ _ Hj
             (json_img_data_b64_json W self _ _ _ _ Ho Hd Hb)).
  now rewrite (strip_data_uri _ _ Hm).
Qed.

Lemma data_uri_payload_is_rewrapped_witness :
  handle_json_response png_world together
    (b64_reply "data:image/jpeg;base64,iVBORw0KGgo=")
  = ([], inr ("![Image](data:image/png;base64,iVBORw0KGgo=)" ++ PyStr.nl
              ++ "`GeneratedImage.png`")).
Proof.
  exact (data_uri_payload_is_rewrapped png_world together
           (b64_reply "data:image/jpeg;base64,iVBORw0KGgo=")
           _ _ [] "image/jpeg" png_magic
           eq_refl eq_refl eq_refl eq_refl eq_refl).
Defined.

(** X8.  A "b64_json" value that is not a string (null, a number, a list,
    an object) makes the JSON normaliser raise [AttributeError] at the
    split, which the [except IndexError] around it does not catch;
    [non_stream_response] returns "Error: " followed by the message of
    that exception. *)
Theorem non_string_payload_is_an_attribute_error
  (W : World) (self : Pipe) (hdrs : Dict.t string) (payload : json)
  (response : Response) (fields first : Dict.t json) (items : list json)
  (v : json) :
  requests_post W (FLUX_SCHNELL_API_BASE_URL (valves self)) hdrs payload
  = inr response ->
  (status_code response < 400 \/ 600 <= status_code response)%Z ->
  PyStr.contains "application/json" (header_get response "Content-Type" "")
  = true ->
  json_ response = inr (JObj fields) ->
  Dict.get "output" fields = None ->
  Dict.get "data" fields = Some (JArr (JObj first :: items)) ->
  Dict.get "b64_json" first = Some v ->
  is_str v = false ->
  handle_json_response W self response
  = ([], inl (Raise AttributeError
                (quote (type_name v) ++ " object has no attribute 'split'")))
  /\ non_stream_response W self hdrs payload
     = ([EPost (FLUX_SCHNELL_API_BASE_URL (valves self)) hdrs payload],
        inr ("Error: " ++ quote (type_name v)
             ++ " object has no attribute 'split'")).
Proof.
  intros Hp Hs Hc Hj Ho Hd Hb Hv.
  assert (E : handle_json_response W self response
              = ([], inl (Raise AttributeError
                            (quote (type_name v)
                             ++ " object has no attribute 'split'")))).
  { unfold handle_json_response. rewrite Hj. cbn [lift bind].
    rewrite (json_img_data_b64_json W self _ _ _ _ Ho Hd Hb).
    cbn [bind app]. unfold json_img_markdown.
    destruct v; try discriminate; reflexivity. }
  split; [exact E|].
  rewrite (non_stream_response_json _ _ _ _ _ Hp Hs Hc), E. reflexivity.
Qed.

Lemma non_string_payload_is_an_attribute_error_witness :
  non_stream_response
    (world_of
       (inr (ok_response "application/json" []
               (inr (JObj [("data", JArr [JObj [("b64_json", JNull)]])]))))
       (inl not_json))
    together [] JNull
  = ([EPost "https://api.together.xyz/v1/images/generations" [] JNull],
     inr "Error: 'NoneType' object has no attribute 'split'").
Proof.
  assert (S : (200 < 400 \/ 600 <= 200)%Z) by (left; reflexivity).
  exact (proj2 (non_string_payload_is_an_attribute_error
                  (world_of
                     (inr (ok_response "application/json" []
                             (inr (JObj [("data",
                                          JArr [JObj [("b64_json", JNull)]])]))))
                     (inl not_json))
                  together [] JNull _ _ _ [] JNull
                  eq_refl S eq_refl eq_refl eq_refl eq_refl eq_refl eq_refl)).
Defined.

(** X9.  A decoded body that is no container (null, a boolean, a number)
    makes the first membership test raise [TypeError]; a decoded array that
    holds neither the string "output" nor the string "data" passes both
    tests and gets the text of the unexpected-format branch.  In both cases
    nothing is fetched. *)
Theorem non_object_body
  (W : World) (self : Pipe) (response : Response) (resp : json)
  (items : list json) :
  json_ response = inr resp ->
  (is_scalar resp = true ->
   handle_json_response W self response
   = ([], inl (Raise TypeError
                 ("argument of type " ++ quote (type_name resp)
                  ++ " is not iterable"))))
  /\ (resp = JArr items ->
      (forall x, In x items -> x <> JStr "output" /\ x <> JStr "data") ->
      handle_json_response W self response = ([], inr unexpected_format)).
Proof.
  intros Hj. split.
  - intros Hs. unfold handle_json_response. rewrite Hj. cbn [lift bind].
    destruct resp; try discriminate; reflexivity.
  - intros -> Hn. unfold handle_json_response. rewrite Hj. cbn [lift bind].
    unfold json_img_data, py_in.
    assert (A : forall k, (k = "output" \/ k = "data") ->
                existsb (fun x => match x with
                                  | JStr s => String.eqb s k
                                  | _ => false
                                  end) items = false).
    { intros k Hk. apply not_true_is_false. intros C.
      apply existsb_exists in C as (x & Hin & Hx).
      destruct x; try discriminate. apply String.eqb_eq in Hx. subst s.
      destruct (Hn _ Hin) as [N1 N2]. destruct Hk; subst k; congruence. }
    rewrite (A "output" (or_introl eq_refl)). cbn [lift bind app].
    rewrite (A "data" (or_intror eq_refl)). reflexivity.
Qed.

Lemma non_object_body_witness :
  handle_json_response png_world together
    (ok_response "application/json" [] (inr JNull))
  = ([], inl (Raise TypeError "argument of type 'NoneType' is not iterable")).
Proof.
  exact (proj1 (non_object_body png_world together
                  (ok_response "application/json" [] (inr JNull)) JNull []
                  eq_refl) eq_refl).
Defined.

(** ** Before the request *)

(** X10.  A payload without a "messages" entry makes [pipe] raise
    [KeyError] before anything is sent; the caller's dictionary has
    nevertheless been given "stream": False. *)
Theorem missing_messages_raises_before_any_request
  (W : World) (self : Pipe) (body : Dict.t json) :
  Dict.get "messages" body = None ->
  snd (pipe W self body) = ([], inl (Raise KeyError "'messages'"))
  /\ fst (pipe W self body) = Dict.set "stream" (JBool false) body.
Proof.
  intros H. split; [|reflexivity].
  unfold pipe. cbn [snd]. unfold py_getitem.
  rewrite get_set_other by reflexivity. now rewrite H.
Qed.

Lemma missing_messages_raises_before_any_request_witness :
  snd (pipe png_world together [("model", JStr "flux_schnell")])
  = ([], inl (Raise KeyError "'messages'"))
  /\ fst (pipe png_world together [("model", JStr "flux_schnell")])
     = [("model", JStr "flux_schnell"); ("stream", JBool false)].
Proof.
  exact (missing_messages_raises_before_any_request png_world together
           [("model", JStr "flux_schnell")] eq_refl).
Defined.

(** X11.  The version fragment is evaluated for every provider, not only
    for Replicate: when its evaluation raises, or when the host's prompt
    extraction raises, [pipe] raises that exception whatever the base URL
    is, and sends nothing. *)
Theorem prelude_failure_escapes_for_every_provider
  (W : World) (self : Pipe) (body : Dict.t json) (messages : json) (e : exn) :
  Dict.get "messages" body = Some messages ->
  (get_last_user_message W messages = inl e ->
   snd (pipe W self body) = ([], inl e))
  /\ (forall prompt,
         get_last_user_message W messages = inr prompt ->
         eval_mapping W (fragment_source self) = inl e ->
         snd (pipe W self body) = ([], inl e)).
Proof.
  intros Hm. split.
  - intros Hp. unfold pipe. cbn [snd]. unfold py_getitem.
    rewrite get_set_other by reflexivity. rewrite Hm. cbn [lift bind].
    now rewrite Hp.
  - intros prompt Hp Hf. unfold pipe. cbn [snd]. unfold py_getitem.
    rewrite get_set_other by reflexivity. rewrite Hm. cbn [lift bind].
    rewrite Hp. unfold payload_map. cbn [lift bind]. now rewrite Hf.
Qed.

Lemma prelude_failure_escapes_for_every_provider_witness :
  snd (pipe
         {| requests_post := fun _ _ _ => inl not_json;
            requests_get := fun _ _ => inl not_json;
            eval_mapping :=
              fun _ => inl (Raise OtherException "invalid syntax");
            get_last_user_message := fun _ => inr (JStr "a cat");
            py_str := plain_str |}
         (pipe_at "https://api-inference.huggingface.co/models/black-forest-labs/FLUX.1-schnell")
         (chat false))
  = ([], inl (Raise OtherException "invalid syntax")).
Proof.
  exact (proj2 (prelude_failure_escapes_for_every_provider
                  {| requests_post := fun _ _ _ => inl not_json;
                     requests_get := fun _ _ => inl not_json;
                     eval_mapping :=
                       fun _ => inl (Raise OtherException "invalid syntax");
                     get_last_user_message := fun _ => inr (JStr "a cat");
                     py_str := plain_str |}
                  (pipe_at "https://api-inference.huggingface.co/models/black-forest-labs/FLUX.1-schnell")
                  (chat false) _ (Raise OtherException "invalid syntax")
                  eq_refl)
           (JStr "a cat") eq_refl eq_refl).
Defined.

(** ** The request that is sent *)

Lemma posts_after_prelude W self (body : Dict.t json) (messages prompt : json)
  (fragment : Dict.t json) (payload : json) (hdrs : Dict.t string) :
  Dict.get "messages" body = Some messages ->
  get_last_user_message W messages = inr prompt ->
  eval_mapping W (fragment_source self) = inr fragment ->
  select_profile self (payload_items prompt fragment) (standard_headers self)
  = (Some payload, hdrs) ->
  posts (snd (pipe W self body))
  = [EPost (FLUX_SCHNELL_API_BASE_URL (valves self)) hdrs payload].
Proof.
  intros Hm Hp Hf Hs.
  rewrite (pipe_after_prelude _ _ _ _ _ _ Hm Hp Hf), Hs.
  unfold posts. cbn [trace fst].
  apply (proj2 (non_stream_response_posts W self _ _)).
Qed.

(** X12.  For the Replicate profile the body that is posted is the
    evaluated fragment with the fixed "input" object put under "input":
    every other key of the fragment is kept with its value, and an "input"
    key of the fragment is replaced. *)
Theorem replicate_body_keeps_fragment
  (W : World) (self : Pipe) (body : Dict.t json) (messages prompt : json)
  (fragment : Dict.t json) :
  Dict.get "messages" body = Some messages ->
  get_last_user_message W messages = inr prompt ->
  eval_mapping W (fragment_source self) = inr fragment ->
  PyStr.contains "huggingface.co" (FLUX_SCHNELL_API_BASE_URL (valves self))
  = false ->
  PyStr.contains "replicate.com" (FLUX_SCHNELL_API_BASE_URL (valves self))
  = true ->
  exists sent,
    posts (snd (pipe W self body))
    = [EPost (FLUX_SCHNELL_API_BASE_URL (valves self))
         [("Authorization", "Bearer " ++ FLUX_SCHNELL_API_KEY (valves self));
          ("Content-Type", "application/json");
          ("Prefer", "wait")]
         (JObj sent)]
    /\ Dict.get "input" sent
       = Some (JObj [("prompt", prompt);
                     ("go_fast", JBool true);
                     ("num_outputs", JNum 1);
                     ("aspect_ratio", JStr "1:1");
                     ("output_format", JStr "webp");
                     ("output_quality", JNum 90)])
    /\ forall k, String.eqb k "input" = false ->
                 Dict.get k sent = Dict.get k fragment.
Proof.
  intros Hm Hp Hf Hh Hr. eexists. split; [|split].
  - apply (posts_after_prelude _ _ _ _ _ _ _ _ Hm Hp Hf).
    unfold payload_items, select_profile. rewrite Hh, Hr. reflexivity.
  - apply get_set_same.
  - intros k Hk. now apply get_set_other.
Qed.

Lemma replicate_body_keeps_fragment_witness :
  exists sent,
    posts (snd (pipe png_world
                  (pipe_at "https://api.replicate.com/v1/models/black-forest-labs/flux-schnell/predictions")
                  (chat false)))
    = [EPost "https://api.replicate.com/v1/models/black-forest-labs/flux-schnell/predictions"
         [("Authorization", "Bearer k");
          ("Content-Type", "application/json");
          ("Prefer", "wait")]
         (JObj sent)]
    /\ Dict.get "input" sent
       = Some (JObj [("prompt", JStr "a cat");
                     ("go_fast", JBool true);
                     ("num_outputs", JNum 1);
                     ("aspect_ratio", JStr "1:1");
                     ("output_format", JStr "webp");
                     ("output_quality", JNum 90)])
    /\ forall k, String.eqb k "input" = false ->
                 Dict.get k sent
                 = Dict.get k
                     [("version",
                       JStr "5599ed30703defd1d160a25a63321b4dec97101d98b4674bcc56e41f62f35637")].
Proof.
  exact (replicate_body_keeps_fragment png_world
           (pipe_at "https://api.replicate.com/v1/models/black-forest-labs/flux-schnell/predictions")
           (chat false) _ (JStr "a cat") _
           eq_refl eq_refl eq_refl eq_refl eq_refl).
Defined.

Lemma at_most_one_fetch_nil (self : Pipe) : at_most_one_fetch self [].
Proof. now left. Qed.

Lemma trace_json_img_data W self (resp : json) :
  at_most_one_fetch self (trace (json_img_data W self resp)).
Proof.
  unfold json_img_data.
  destruct (py_in "output" resp) as [e|[|]]; cbn [lift bind app];
    [apply at_most_one_fetch_nil | |].
  - destruct (py_getitem resp "output") as [e|out]; cbn [lift bind app];
      [apply at_most_one_fetch_nil|].
    destruct (py_getitem_0 out) as [e|u]; cbn [lift bind app];
      [apply at_most_one_fetch_nil|].
    pose proof (trace_url_to_img_data W self u) as T.
    destruct (url_to_img_data W self u) as [t [e|s]];
      cbn [trace fst] in T; subst t; cbn [bind ret app trace fst];
      right; eexists; reflexivity.
  - destruct (py_in "data" resp) as [e|[|]]; cbn [lift bind app ret];
      [apply at_most_one_fetch_nil | |apply at_most_one_fetch_nil].
    destruct (py_getitem resp "data") as [e|data]; cbn [lift bind app];
      [apply at_most_one_fetch_nil|].
    destruct (py_getitem_0 data) as [e|first]; cbn [lift bind app];
      [apply at_most_one_fetch_nil|].
    destruct (py_in "b64_json" first) as [e|[|]]; cbn [lift bind app ret];
      [apply at_most_one_fetch_nil | |apply at_most_one_fetch_nil].
    destruct (py_getitem first "b64_json"); apply at_most_one_fetch_nil.
Qed.

Lemma trace_json_img_markdown W (resp img_data : json) :
  trace (json_img_markdown W resp img_data) = [].
Proof.
  unfold json_img_markdown.
  destruct (str_method "split" img_data); cbn [lift bind app]; [reflexivity|].
  destruct (get_img_extension _); reflexivity.
Qed.

Lemma trace_handle_json_response W self (r : Response) :
  trace (handle_json_response W self r)
  = match json_ r with
    | inr resp => trace (json_img_data W self resp)
    | inl _ => []
    end.
Proof.
  unfold handle_json_response.
  destruct (json_ r) as [e|resp]; cbn [lift bind]; [reflexivity|].
  destruct (json_img_data W self resp) as [t [e|[d|]]];
    cbn [bind ret trace fst app]; rewrite ?app_nil_r; try reflexivity.
  pose proof (trace_json_img_markdown W resp d) as T.
  destruct (json_img_markdown W resp d) as [t' r'].
  cbn [trace fst] in *. subst t'. now rewrite app_nil_r.
Qed.

Lemma trace_non_stream_response W self (hdrs : Dict.t string) (payload : json) :
  exists rest,
    trace (non_stream_response W self hdrs payload)
    = EPost (FLUX_SCHNELL_API_BASE_URL (valves self)) hdrs payload :: rest
    /\ at_most_one_fetch self rest.
Proof.
  unfold non_stream_response. rewrite trace_try_except by reflexivity.
  rewrite trace_bind. cbn [emit trace outcome fst snd app].
  eexists. split; [reflexivity|].
  rewrite trace_bind. cbn [lift trace outcome fst snd app].
  destruct (requests_post W _ hdrs payload) as [e|r];
    [apply at_most_one_fetch_nil|].
  rewrite trace_bind, trace_raise_for_status. cbn [app].
  destruct (outcome (raise_for_status r)); [apply at_most_one_fetch_nil|].
  destruct (PyStr.contains "application/json" _).
  - rewrite trace_handle_json_response.
    destruct (json_ r); [apply at_most_one_fetch_nil|].
    apply trace_json_img_data.
  - destruct (PyStr.contains "image/" _); apply at_most_one_fetch_nil.
Qed.

Lemma selected_headers_keep_standard (self : Pipe) (prompt : json)
  (fragment : Dict.t json) :
  Dict.get "Authorization"
    (snd (select_profile self (payload_items prompt fragment)
            (standard_headers self)))
  = Some ("Bearer " ++ FLUX_SCHNELL_API_KEY (valves self))
  /\ Dict.get "Content-Type"
       (snd (select_profile self (payload_items prompt fragment)
               (standard_headers self)))
     = Some "application/json".
Proof.
  unfold payload_items, select_profile, standard_headers.
  destruct (PyStr.contains "huggingface.co" _); [split; reflexivity|].
  destruct (PyStr.contains "replicate.com" _); [split; reflexivity|].
  destruct (PyStr.contains "together.xyz" _); [split; reflexivity|].
  destruct (PyStr.contains "hyperbolic.xyz" _); split; reflexivity.
Qed.

(** X13.  One call sends at most two requests and never repeats one:
    nothing at all, or one POST to the configured base URL, possibly
    followed by one GET.  The POST always carries the bearer token and the
    JSON content type, whatever the provider's own headers are; the GET
    carries the bearer token and nothing else, to whatever address the
    answer named. *)
Theorem pipe_request_discipline
  (W : World) (self : Pipe) (body : Dict.t json) :
  trace (snd (pipe W self body)) = []
  \/ exists hdrs payload rest,
       trace (snd (pipe W self body))
       = EPost (FLUX_SCHNELL_API_BASE_URL (valves self)) hdrs payload :: rest
       /\ (rest = []
           \/ exists target,
                rest = [EGet target
                          [("Authorization",
                            "Bearer " ++ FLUX_SCHNELL_API_KEY (valves self))]])
       /\ Dict.get "Authorization" hdrs
          = Some ("Bearer " ++ FLUX_SCHNELL_API_KEY (valves self))
       /\ Dict.get "Content-Type" hdrs = Some "application/json".
Proof.
  destruct (Dict.get "messages" body) as [messages|] eqn:Hm.
  2:{ left. unfold pipe. cbn [snd]. unfold py_getitem.
      rewrite get_set_other by reflexivity. now rewrite Hm. }
  destruct (get_last_user_message W messages) as [e|prompt] eqn:Hp.
  { left. unfold pipe. cbn [snd]. unfold py_getitem.
    rewrite get_set_other by reflexivity. rewrite Hm. cbn [lift bind].
    now rewrite Hp. }
  destruct (eval_mapping W (fragment_source self)) as [e|fragment] eqn:Hf.
  { left. unfold pipe. cbn [snd]. unfold py_getitem.
    rewrite get_set_other by reflexivity. rewrite Hm. cbn [lift bind].
    rewrite Hp. unfold payload_map. cbn [lift bind]. now rewrite Hf. }
  rewrite (pipe_after_prelude _ _ _ _ _ _ Hm Hp Hf).
  pose proof (selected_headers_keep_standard self prompt fragment) as [A C].
  destruct (select_profile self _ _) as [[payload|] hdrs]; [|now left].
  right. cbn [snd] in A, C. cbn [trace fst].
  destruct (trace_non_stream_response W self hdrs payload) as (rest & T & F).
  exists hdrs, payload, rest. repeat split; assumption.
Qed.

(** ** The text that is returned *)

Lemma caught_is_error (e : exn) : PyStr.startswith "Error: " (caught e) = true.
Proof. unfold caught. destruct (is_request_exception e); reflexivity. Qed.

Lemma handle_json_response_shape W self (r : Response) (s : string) :
  outcome (handle_json_response W self r) = inr s ->
  PyStr.startswith "Error: " s = true
  \/ PyStr.startswith "![Image](data:" s = true.
Proof.
  unfold handle_json_response.
  destruct (json_ r) as [e|resp]; cbn [lift bind]; [discriminate|].
  destruct (json_img_data W self resp) as [t [e|[d|]]];
    cbn [bind ret outcome snd]; [discriminate | |].
  - unfold json_img_markdown.
    destruct (str_method "split" d) as [e|str]; cbn [lift bind];
      [discriminate|].
    destruct (get_img_extension _); cbn [ret outcome snd];
      intros H; injection H as <-; [right | left]; reflexivity.
  - intros H; injection H as <-. left; reflexivity.
Qed.

Lemma non_stream_response_shape W self (hdrs : Dict.t string) (payload : json)
  (s : string) :
  outcome (non_stream_response W self hdrs payload) = inr s ->
  PyStr.startswith "Error: " s = true
  \/ PyStr.startswith "![Image](data:" s = true.
Proof.
  unfold non_stream_response.
  match goal with
  | |- outcome (try_except ?m _ _) = _ -> _ => destruct m as [t [e|s']] eqn:E
  end.
  - cbn [try_except]. fold (caught e).
    destruct (is_request_exception e) eqn:R;
      cbn [ret outcome snd]; intros H; injection H as <-;
      pose proof (caught_is_error e) as C; unfold caught in C;
      rewrite R in C; left; exact C.
  - cbn [try_except outcome snd]. intros H; injection H as ->.
    revert E. cbn [emit bind].
    destruct (requests_post W _ hdrs payload) as [e|r]; cbn [lift bind];
      [discriminate|].
    destruct (raise_for_status r) as [t0 [e|[]]]; cbn [bind];
      [discriminate|].
    destruct (PyStr.contains "application/json" _).
    + pose proof (handle_json_response_shape W self r) as Sh.
      destruct (handle_json_response W self r) as [t1 [e|s1]];
        [discriminate|].
      intros H; injection H as _ <-. apply Sh. reflexivity.
    + destruct (PyStr.contains "image/" _); cbn [handle_image_response ret];
        intros H; injection H as _ <-; [right | left]; reflexivity.
Qed.

(** X14.  Whatever the provider answers, the string [pipe] returns is of
    one of two shapes: it starts with "Error: ", or it starts with the
    markdown image opening followed by a data URI. *)
Theorem result_is_markdown_or_error
  (W : World) (self : Pipe) (body : Dict.t json) (s : string) :
  outcome (snd (pipe W self body)) = inr (RStr s) ->
  PyStr.startswith "Error: " s = true
  \/ PyStr.startswith "![Image](data:" s = true.
Proof.
  unfold pipe. cbn [snd].
  destruct (py_getitem _ "messages") as [e|messages]; [discriminate|].
  cbn [lift bind].
  destruct (get_last_user_message W messages) as [e|prompt]; [discriminate|].
  unfold payload_map. cbn [lift bind].
  destruct (eval_mapping W _) as [e|fragment]; [discriminate|].
  cbn [lift bind ret].
  destruct (select_profile self _ _) as [[payload|] hdrs].
  - unfold Dict.get_default. rewrite get_set_same. cbn [py_truthy].
    pose proof (non_stream_response_shape W self hdrs payload) as Sh.
    destruct (non_stream_response_returns W self hdrs payload) as [s' Hs].
    destruct (non_stream_response W self hdrs payload) as [t r].
    cbn [outcome snd] in Hs, Sh. subst r.
    cbn [bind try_except ret outcome snd].
    intros H; injection H as <-. apply Sh. reflexivity.
  - cbn [outcome snd]. intros H; injection H as <-. left; reflexivity.
Qed.

Lemma result_is_markdown_or_error_witness :
  PyStr.startswith "Error: "
    ("![Image](data:image/png;base64,iVBORw0KGgo=)" ++ PyStr.nl
     ++ "`GeneratedImage.png`") = true
  \/ PyStr.startswith "![Image](data:"
       ("![Image](data:image/png;base64,iVBORw0KGgo=)" ++ PyStr.nl
        ++ "`GeneratedImage.png`") = true.
Proof.
  exact (result_is_markdown_or_error png_world together (chat false) _ eq_refl).
Defined.

(** ** The "output" field *)

(** X15.  The "output" field comes first: when the decoded object has
    one, the image data depends on that field alone, and a "data" entry
    beside it is never read, even when "output" turns out to be unusable. *)
Theorem output_takes_precedence
  (W : World) (self : Pipe) (fields : Dict.t json) (out : json) :
  Dict.get "output" fields = Some out ->
  json_img_data W self (JObj fields)
  = json_img_data W self (JObj [("output", out)]).
Proof.
  intros H. unfold json_img_data, py_in, py_getitem, Dict.mem.
  rewrite H. reflexivity.
Qed.

Lemma output_takes_precedence_witness :
  json_img_data png_world together
    (JObj [("data", JArr [JObj [("b64_json", JStr "iVBORw0KGgo=")]]);
           ("output", JArr [])])
  = json_img_data png_world together (JObj [("output", JArr [])]).
Proof.
  exact (output_takes_precedence png_world together
           [("data", JArr [JObj [("b64_json", JStr "iVBORw0KGgo=")]]);
            ("output", JArr [])]
           (JArr []) eq_refl).
Defined.

(** X16.  When "output" is a string and not an array, its first element
    is its first character: the address that is fetched is that one
    character. *)
Theorem string_output_fetches_first_character
  (W : World) (self : Pipe) (response : Response) (fields : Dict.t json)
  (c : ascii) (rest : string) :
  json_ response = inr (JObj fields) ->
  Dict.get "output" fields = Some (JStr (String c rest)) ->
  trace (handle_json_response W self response)
  = [EGet (JStr (String c "")) (bearer self)].
Proof.
  intros Hj Ho. rewrite trace_handle_json_response, Hj.
  unfold json_img_data, py_in, py_getitem, Dict.mem.
  rewrite Ho. cbn [lift bind py_getitem_0 app].
  pose proof (trace_url_to_img_data W self (JStr (String c ""))) as T.
  destruct (url_to_img_data W self (JStr (String c ""))) as [t [e|s]];
    cbn [trace fst] in T; subst t; reflexivity.
Qed.

Lemma string_output_fetches_first_character_witness :
  trace (handle_json_response png_world together
           (ok_response "application/json" []
              (inr (JObj [("output", JStr "https://x/y.webp")]))))
  = [EGet (JStr "h") [("Authorization", "Bearer k")]].
Proof.
  exact (string_output_fetches_first_character png_world together
           (ok_response "application/json" []
              (inr (JObj [("output", JStr "https://x/y.webp")])))
           _ "h" "ttps://x/y.webp" eq_refl eq_refl).
Defined.

(** ** Construction and the payload *)

(** X17.  An adapter built while FLUX_SCHNELL_API_BASE_URL is not set
    posts to the Hugging Face endpoint with the x-wait-for-model header and
    the body made of "inputs" alone; its key is the value of
    FLUX_SCHNELL_API_KEY, or the empty string, and the version fragment it
    evaluates is the default one whatever the environment holds. *)
Theorem default_environment_selects_hugging_face
  (W : World) (getenv : string -> option string) (body : Dict.t json)
  (messages prompt : json) (fragment : Dict.t json) :
  getenv "FLUX_SCHNELL_API_BASE_URL" = None ->
  Dict.get "messages" body = Some messages ->
  get_last_user_message W messages = inr prompt ->
  eval_mapping W ("{" ++ default_BEFORE_INPUT_STRING ++ "}") = inr fragment ->
  posts (snd (pipe W (init getenv) body))
  = [EPost
       "https://api-inference.huggingface.co/models/black-forest-labs/FLUX.1-schnell"
       [("Authorization",
         "Bearer " ++ match getenv "FLUX_SCHNELL_API_KEY" with
                      | Some v => v
                      | None => ""
                      end);
        ("Content-Type", "application/json");
        ("x-wait-for-model", "true")]
       (JObj [("inputs", prompt)])].
Proof.
  intros He Hm Hp Hf.
  rewrite (posts_after_prelude W (init getenv) body messages prompt fragment
             (JObj [("inputs", prompt)])
             [("Authorization",
               "Bearer " ++ match getenv "FLUX_SCHNELL_API_KEY" with
                            | Some v => v
                            | None => ""
                            end);
              ("Content-Type", "application/json");
              ("x-wait-for-model", "true")] Hm Hp Hf).
  - cbn [init valves FLUX_SCHNELL_API_BASE_URL]. now rewrite He.
  - unfold payload_items, select_profile, standard_headers.
    cbn [init valves FLUX_SCHNELL_API_BASE_URL FLUX_SCHNELL_API_KEY].
    rewrite He. reflexivity.
Qed.

Lemma default_environment_selects_hugging_face_witness :
  posts (snd (pipe png_world (init (fun _ => None)) (chat false)))
  = [EPost
       "https://api-inference.huggingface.co/models/black-forest-labs/FLUX.1-schnell"
       [("Authorization", "Bearer ");
        ("Content-Type", "application/json");
        ("x-wait-for-model", "true")]
       (JObj [("inputs", JStr "a cat")])].
Proof.
  exact (default_environment_selects_hugging_face png_world (fun _ => None)
           (chat false) _ (JStr "a cat") _ eq_refl eq_refl eq_refl eq_refl).
Defined.

(** X18.  Of the caller's payload [pipe] reads the "messages" entry and
    nothing else: two payloads with the same "messages" entry send the same
    requests and get the same result. *)
Theorem pipe_reads_only_messages
  (W : World) (self : Pipe) (body body' : Dict.t json) :
  Dict.get "messages" body = Dict.get "messages" body' ->
  snd (pipe W self body) = snd (pipe W self body').
Proof.
  intros H. unfold pipe. cbn [snd]. unfold py_getitem, Dict.get_default.
  rewrite (get_set_other "messages" "stream" (JBool false) body eq_refl).
  rewrite (get_set_other "messages" "stream" (JBool false) body' eq_refl).
  rewrite (get_set_same "stream" (JBool false) body).
  rewrite (get_set_same "stream" (JBool false) body').
  now rewrite H.
Qed.

Lemma pipe_reads_only_messages_witness :
  snd (pipe png_world together (chat true))
  = snd (pipe png_world together
           [("model", JStr "flux_schnell.flux_schnell");
            ("messages",
             JArr [JObj [("role", JStr "user"); ("content", JStr "a cat")]]);
            ("temperature", JNum 1)]).
Proof.
  exact (pipe_reads_only_messages png_world together (chat true)
           [("model", JStr "flux_schnell.flux_schnell");
            ("messages",
             JArr [JObj [("role", JStr "user"); ("content", JStr "a cat")]]);
            ("temperature", JNum 1)]
           eq_refl).
Defined.

(** ** The file name hint of a raw image *)

Lemma has_char_app (c : ascii) (a b : string) :
  has_char c (a ++ b) = has_char c a || has_char c b.
Proof.
  induction a as [|x a IH]; cbn [append has_char]; [reflexivity|].
  now rewrite IH, orb_assoc.
Qed.

Lemma split_slash_pieces (s cur : string) :
  has_char "/" cur = false ->
  Forall (fun piece => has_char "/" piece = false)
    (PyStr.split_go "/" s 0 cur).
Proof.
  revert cur; induction s as [|c s IH]; intros cur H; cbn [PyStr.split_go].
  - now constructor.
  - cbn [PyStr.startswith]. rewrite andb_true_r.
    destruct (Ascii.eqb "/" c) eqn:E.
    + constructor; [exact H|]. apply IH. reflexivity.
    + apply IH. rewrite has_char_app, H. cbn [has_char]. now rewrite E.
Qed.

Lemma Forall_last {A} (P : A -> Prop) (l : list A) (d : A) :
  Forall P l -> P d -> P (last l d).
Proof.
  intros F D. induction F as [|x l Hx F IH]; [exact D|].
  destruct l; [exact Hx | exact IH].
Qed.

(** X19.  The raw-image normaliser never raises and sends nothing, and
    the extension it writes in the file name hint contains no slash,
    whatever the content type of the answer is. *)
Theorem file_name_hint_has_no_slash (response : Response) :
  exists ext,
    handle_image_response response
    = ([], inr (markdown_image
                  ("data:" ++ header_get response "Content-Type" ""
                   ++ ";base64," ++ Base64.b64encode (content response))
                  ext))
    /\ has_char "/" ext = false.
Proof.
  unfold handle_image_response.
  destruct (PyStr.contains "image/" (header_get response "Content-Type" "")).
  - exists (last (PyStr.split "/" (header_get response "Content-Type" "")) "").
    split.
    + unfold markdown_image, ret. now rewrite !append_assoc.
    + apply Forall_last; [|reflexivity].
      apply split_slash_pieces. reflexivity.
  - exists "png". split; [|reflexivity].
    unfold markdown_image, ret. now rewrite !append_assoc.
Qed.
